(** * mqconnector.rabbit: the AMQP connector and the management REST connector

    A shallow embedding of [src/mqconnector/rabbit.py].  The two classes of
    the module, [AMQPConnector] and [RESTConnector], are records; their
    methods are functions in a monad that threads the trace of observable
    effects (connection attempts, HTTP requests, log lines, sleeps) and that
    can raise a Python exception.  The libraries the module calls ([pika],
    [requests], [json]) are parameters of the development: their answers may
    depend on everything that happened before. *)

From Stdlib Require Import ZArith List String Ascii Bool Lia.
From Stdlib Require Import Floats.SpecFloat.
From Stdlib Require Import Numbers.DecimalString.
From Equations Require Import Equations.
Import ListNotations.

Local Open Scope string_scope.
Local Open Scope Z_scope.

(** ** Python values *)

Set Warnings "-register-all".

(** The values [json.loads] can produce.  A [dict] keeps its keys in insertion
    order, without duplicates, so it is an association list. *)
Inductive pyval : Type :=
| PNone : pyval
| PBool : bool -> pyval
| PInt : Z -> pyval
| PFloat : spec_float -> pyval
| PStr : string -> pyval
| PList : list pyval -> pyval
| PDict : list (string * pyval) -> pyval.

(** The exceptions the module can let escape. *)
Inductive exn : Type :=
| KeyError : string -> exn
| TypeError : exn
| AttributeError : exn
| ValueError : exn
| JSONDecodeError : exn
| RequestException : exn
| PikaError : exn
| IndexError : exn.

Inductive outcome (A : Type) : Type :=
| Ok : A -> outcome A
| Raise : exn -> outcome A.
Arguments Ok {A} _.
Arguments Raise {A} _.

(** [str(n)] for an [int]. *)
Definition str_int (n : Z) : string := NilZero.string_of_int (Z.to_int n).

(** [str(x)] as [str.format] applies it to a field that is a [str] or [None]. *)
Definition str_opt (x : option string) : string :=
  match x with
  | Some s => s
  | None => "None"
  end.

Definition str_opt_int (x : option Z) : string :=
  match x with
  | Some n => str_int n
  | None => "None"
  end.

(** ** Dictionaries *)

Module Dict.

Definition t : Type := list (string * pyval).

Fixpoint lookup (k : string) (d : t) : option pyval :=
  match d with
  | [] => None
  | (k', v) :: d' => if String.eqb k k' then Some v else lookup k d'
  end.

(** [d[k] = v]: an existing key keeps its position. *)
Fixpoint set (k : string) (v : pyval) (d : t) : t :=
  match d with
  | [] => [(k, v)]
  | (k', v') :: d' =>
      if String.eqb k k' then (k, v) :: d' else (k', v') :: set k v d'
  end.

Definition keys (d : t) : list string := map fst d.

(** A dict display [{k1: v1, ...}] evaluated left to right. *)
Definition of_items (kvs : list (string * pyval)) : t :=
  fold_left (fun d kv => set (fst kv) (snd kv) d) kvs [].

End Dict.

(** [d.get(k, default)] *)
Definition py_get (d : pyval) (k : string) (default : pyval) : outcome pyval :=
  match d with
  | PDict kvs =>
      match Dict.lookup k kvs with
      | Some v => Ok v
      | None => Ok default
      end
  | _ => Raise AttributeError
  end.

(** [d[k]] for a string key. *)
Definition py_getitem (d : pyval) (k : string) : outcome pyval :=
  match d with
  | PDict kvs =>
      match Dict.lookup k kvs with
      | Some v => Ok v
      | None => Raise (KeyError k)
      end
  | _ => Raise TypeError
  end.

(** [d[k] = v] for a string key. *)
Definition py_setitem (d : pyval) (k : string) (v : pyval) : outcome pyval :=
  match d with
  | PDict kvs => Ok (PDict (Dict.set k v kvs))
  | _ => Raise TypeError
  end.

Fixpoint chars (s : string) : list pyval :=
  match s with
  | EmptyString => []
  | String c s' => PStr (String c EmptyString) :: chars s'
  end.

(** The elements [for row in data] visits. *)
Definition py_iter (data : pyval) : outcome (list pyval) :=
  match data with
  | PList rows => Ok rows
  | PDict kvs => Ok (map PStr (Dict.keys kvs))
  | PStr s => Ok (chars s)
  | _ => Raise TypeError
  end.

(** ** Effects *)

Inductive level : Type := INFO | WARNING | ERROR.

(** What [pika.URLParameters] and [pika.ConnectionParameters] hold, as far as
    the module reads it. *)
Record Credentials : Type := mkCredentials {
  cred_username : option string;
  cred_password : option string
}.

Record Parameters : Type := mkParameters {
  p_host : string;
  p_port : Z;
  p_virtual_host : string;
  p_credentials : Credentials
}.

Record Response : Type := mkResponse {
  status_code : Z;
  text : string
}.

Definition handle : Type := nat.

Inductive event : Type :=
| EvDial : Parameters -> event
| EvGet : string -> option string * option string -> event
| EvLog : level -> string -> event
| EvSleep : Z -> event.

Definition trace : Type := list event.
Bind Scope list_scope with trace.

(** A method call: it extends the trace, and returns or raises. *)
Definition M (A : Type) : Type := trace -> outcome A * trace.

Definition ret {A} (a : A) : M A := fun tr => (Ok a, tr).

Definition raise {A} (e : exn) : M A := fun tr => (Raise e, tr).

Definition bind {A B} (m : M A) (k : A -> M B) : M B :=
  fun tr =>
    match m tr with
    | (Ok a, tr') => k a tr'
    | (Raise e, tr') => (Raise e, tr')
    end.

Definition lift {A} (o : outcome A) : M A := fun tr => (o, tr).

Definition emit (e : event) : M unit := fun tr => (Ok tt, (tr ++ [e])%list).

Notation "x <- m ;; k" := (bind m (fun x => k))
  (at level 61, m at next level, right associativity).
Notation "m ;;; k" := (bind m (fun _ => k))
  (at level 61, right associativity).

Fixpoint mapM {A B} (f : A -> M B) (l : list A) : M (list B) :=
  match l with
  | [] => ret []
  | x :: l' => y <- f x ;; ys <- mapM f l' ;; ret (y :: ys)
  end.

Definition logger (lv : level) (msg : string) : M unit := emit (EvLog lv msg).

Definition sleep (secs : Z) : M unit := emit (EvSleep secs).

Definition dials (tr : trace) : nat :=
  List.length (filter (fun e => match e with EvDial _ => true | _ => false end) tr).

Definition requests (tr : trace) : list (string * (option string * option string)) :=
  flat_map (fun e => match e with EvGet u a => [(u, a)] | _ => [] end) tr.

(** ** The libraries the module calls *)

(** [pika]: the two ways to build connection parameters (either may raise),
    and [BlockingConnection], which returns a connection or raises; what it
    does may depend on the whole history.  [PlainCredentials] only stores
    its two arguments. *)
Class Pika : Type := {
  URLParameters : string -> outcome Parameters;
  ConnectionParameters :
    option string -> Z -> option string -> Credentials ->
    list (string * pyval) -> outcome Parameters;
  BlockingConnection : trace -> Parameters -> option handle
}.

Definition PlainCredentials (username password : option string) : Credentials :=
  mkCredentials username password.

(** [requests.get(url, auth=(username, password))] *)
Class Requests : Type := {
  requests_get : trace -> string -> option string * option string -> outcome Response
}.

(** [json.loads] and [json.dumps] *)
Class Json : Type := {
  json_loads : string -> outcome pyval;
  json_dumps : pyval -> string
}.

(** ** class AMQPConnector *)

Module AMQPConnector.

Record t : Type := mk {
  connection : option handle;
  max_attempt_retry : Z;
  parameters : Parameters
}.

(** The class attributes [__connection = None] and [__max_attempt_retry = 3],
    which an instance reads until it assigns its own. *)
Definition class_connection : option handle := None.
Definition class_max_attempt_retry : Z := 3.

Record args : Type := mkargs {
  amqp_uri : option string;
  host : option string;
  port : Z;
  vhost : option string;
  user : option string;
  password : option string;
  options : list (string * pyval)
}.

(** [options.get('max_attempt_retry') is not None] *)
Definition has_max_attempt_retry (opts : list (string * pyval)) : bool :=
  match Dict.lookup "max_attempt_retry" opts with
  | None => false
  | Some PNone => false
  | Some _ => true
  end.

Definition __init__ `{Pika} (a : args) : outcome t :=
  match
    match amqp_uri a with
    | Some uri => URLParameters uri
    | None =>
        let credentials := PlainCredentials (user a) (password a) in
        ConnectionParameters (host a) (port a) (vhost a) credentials (options a)
    end
  with
  | Raise e => Raise e
  | Ok params =>
      let self := mk class_connection class_max_attempt_retry params in
      if has_max_attempt_retry (options a)
      then Ok (mk (connection self) (Z.max (max_attempt_retry self) 0) params)
      else Ok self
  end.

(** [pika.BlockingConnection(parameters=...)] inside the [try]. *)
Definition dial `{Pika} (params : Parameters) : M (option handle) :=
  fun tr => (Ok (BlockingConnection tr params), (tr ++ [EvDial params])%list).

Definition target (params : Parameters) : string :=
  p_host params ++ ":" ++ str_int (p_port params) ++ "/" ++ p_virtual_host params.

Definition msg_connected (attempts : Z) (params : Parameters) : string :=
  "Connected: " ++ str_int attempts ++ " | " ++ target params.

Definition msg_retry (attempts : Z) (params : Parameters) : string :=
  "Retry connect: " ++ str_int attempts ++ " | " ++ target params.

Definition msg_cannot (attempts : Z) (params : Parameters) : string :=
  "Cannot connect to queue " ++ target params ++ " after " ++ str_int attempts.

(** The budget [connect] computes before its loop. *)
Definition budget (self : t) (attempts_retry : option Z) : Z :=
  match attempts_retry with
  | None => max_attempt_retry self
  | Some n => Z.min n (max_attempt_retry self)
  end.

(** The [while True] loop, entered with [attempts] attempts already made. *)
Equations? loop `{Pika} (self : t) (attempts_retry attempts : Z) : M t
  by wf (Z.to_nat (attempts_retry - attempts)) lt :=
  loop self attempts_retry attempts :=
    let attempts' := attempts + 1 in
    c <- dial (parameters self) ;;
    match c with
    | Some conn =>
        logger INFO (msg_connected attempts' (parameters self)) ;;;
        ret (mk (Some conn) (max_attempt_retry self) (parameters self))
    | None =>
        logger WARNING (msg_retry attempts' (parameters self)) ;;;
        match Z_gt_dec attempts' attempts_retry with
        | left _ =>
            logger ERROR (msg_cannot attempts' (parameters self)) ;;;
            ret self
        | right _ =>
            sleep (Z.min (attempts' * 2) 30) ;;;
            loop self attempts_retry attempts'
        end
    end.
Proof. subst attempts'. lia. Qed.

(** [connect] returns the connection the instance holds after the loop,
    together with the instance. *)
Definition connect `{Pika} (self : t) (attempts_retry : option Z)
  : M (option handle * t) :=
  self' <- loop self (budget self attempts_retry) 0 ;;
  ret (connection self', self').

End AMQPConnector.

(** ** class RESTConnector *)

Definition py_opt_str (x : option string) : pyval :=
  match x with
  | Some s => PStr s
  | None => PNone
  end.

Definition py_opt_int (x : option Z) : pyval :=
  match x with
  | Some n => PInt n
  | None => PNone
  end.

(** The dict display [{k: row.get(k, default), ...}] the accessors build from
    an upstream record: the keys in the order written, each with its default. *)
Fixpoint record_of (row : pyval) (fields : list (string * pyval))
  : outcome (list (string * pyval)) :=
  match fields with
  | [] => Ok []
  | (k, default) :: fields' =>
      match py_get row k default with
      | Raise e => Raise e
      | Ok v =>
          match record_of row fields' with
          | Raise e => Raise e
          | Ok kvs => Ok ((k, v) :: kvs)
          end
      end
  end.

Definition pick (row : pyval) (fields : list (string * pyval)) : outcome pyval :=
  match record_of row fields with
  | Raise e => Raise e
  | Ok kvs => Ok (PDict (Dict.of_items kvs))
  end.

Module RESTConnector.

Record t : Type := mk {
  host : option string;
  port : option Z;
  virtual_host : option string;
  username : option string;
  password : option string;
  protocol : option string
}.

Definition set_host (self : t) (value : option string) : t :=
  mk value (port self) (virtual_host self) (username self) (password self) (protocol self).

(** [int(value) if value is not None else None], for an [int] argument. *)
Definition set_port (self : t) (value : option Z) : t :=
  mk (host self) value (virtual_host self) (username self) (password self) (protocol self).

Definition set_virtual_host (self : t) (value : option string) : t :=
  mk (host self) (port self) value (username self) (password self) (protocol self).

Definition set_username (self : t) (value : option string) : t :=
  mk (host self) (port self) (virtual_host self) value (password self) (protocol self).

Definition set_password (self : t) (value : option string) : t :=
  mk (host self) (port self) (virtual_host self) (username self) value (protocol self).

Definition set_protocol (self : t) (value : option string) : t :=
  mk (host self) (port self) (virtual_host self) (username self) (password self) value.

Definition use_ssl (self : t) (use_ssl : option bool) : t :=
  match use_ssl with
  | None => self
  | Some true => set_protocol self (Some "https")
  | Some false => set_protocol self (Some "http")
  end.

(** The class attributes, all [None]; [__port] is first assigned by
    [__init__]. *)
Definition class_defaults : t := mk None None None None None None.

Definition __init__ (host : option string) (port : option Z)
    (vhost username password : option string) (ssl : option bool) : t :=
  let self := use_ssl class_defaults ssl in
  let self := set_host self host in
  let self := set_port self port in
  let self := set_virtual_host self vhost in
  let self := set_username self username in
  set_password self password.

Definition get_parameters_from_amqp_uri `{Pika} (self : t) (amqp_uri : string)
  : outcome t :=
  match URLParameters amqp_uri with
  | Raise e => Raise e
  | Ok parameters =>
      let self := set_host self (Some (p_host parameters)) in
      let self := set_virtual_host self (Some (p_virtual_host parameters)) in
      let self := set_username self (cred_username (p_credentials parameters)) in
      Ok (set_password self (cred_password (p_credentials parameters)))
  end.

Definition get_api_url (self : t) (api : option string) : string :=
  let host_and_port := host self in
  let host_and_port :=
    match port self with
    | Some p => Some (":" ++ str_int p)
    | None => host_and_port
    end in
  match api with
  | None => str_opt (protocol self) ++ "://" ++ str_opt host_and_port ++ "/api"
  | Some api =>
      str_opt (protocol self) ++ "://" ++ str_opt host_and_port ++ "/api/" ++ api
  end.

Definition masked : string := "********".

(** The dict [__str__] hands to [json.dumps]. *)
Definition description (self : t) : pyval :=
  PDict (Dict.of_items [
    ("host", py_opt_str (host self));
    ("port", py_opt_int (port self));
    ("virtual_host", py_opt_str (virtual_host self));
    ("username", py_opt_str (username self));
    ("password", PStr masked);
    ("protocol", py_opt_str (protocol self))
  ]).

Definition __str__ `{Json} (self : t) : string := json_dumps (description self).

(** The [auth] argument of a request: [(self.username, self.password)]. *)
Definition auth (self : t) : option string * option string :=
  (username self, password self).

(** [requests.get(url, auth=...)] *)
Definition http_get `{Requests} (url : string) (auth : option string * option string)
  : M Response :=
  fun tr => (requests_get tr url auth, (tr ++ [EvGet url auth])%list).

Definition msg_request (url : string) (response : Response) : string :=
  "Request to " ++ url ++ " | status_code: " ++ str_int (status_code response)
    ++ " | body: " ++ text response.

Definition make_get_request `{Requests} (self : t) (url : string) : M (option string) :=
  response <- http_get url (auth self) ;;
  if negb (status_code response =? 200)
  then logger ERROR (msg_request url response) ;;; ret None
  else ret (Some (text response)).

Definition get_list_vhosts `{Requests} `{Json} (self : t) (name_only : bool) : M pyval :=
  let url := get_api_url self (Some "vhosts") in
  data <- make_get_request self url ;;
  match data with
  | None => ret (PList [])
  | Some data =>
      data <- lift (json_loads data) ;;
      if negb name_only then ret data
      else
        rows <- lift (py_iter data) ;;
        result <- mapM (fun row => lift (py_getitem row "name")) rows ;;
        ret (PList result)
  end.

Definition get_overview `{Requests} `{Json} (self : t) : M pyval :=
  let url := get_api_url self (Some "overview") in
  data <- make_get_request self url ;;
  match data with
  | None => ret (PDict [])
  | Some data =>
      data <- lift (json_loads data) ;;
      object_totals <- lift (py_getitem data "object_totals") ;;
      message_stats <- lift (py_getitem data "message_stats") ;;
      queue_totals <- lift (py_getitem data "queue_totals") ;;
      ret (PDict (Dict.of_items [
        ("object_totals", object_totals);
        ("message_stats", message_stats);
        ("queue_totals", queue_totals)
      ]))
  end.

Definition connection_fields : list (string * pyval) := [
  ("vhost", PNone); ("user", PNone); ("name", PNone); ("peer_host", PNone);
  ("peer_port", PNone); ("host", PNone); ("port", PNone);
  ("client_properties", PNone); ("channel_max", PNone); ("timeout", PNone);
  ("protocol", PNone); ("auth_mechanism", PNone); ("channels", PNone);
  ("state", PNone); ("send_pend", PNone); ("send_cnt", PNone);
  ("recv_cnt", PNone); ("connected_at", PNone)
].

Definition get_connections `{Requests} `{Json} (self : t) (vhost : option string)
    (summary : bool) : M pyval :=
  let url :=
    match vhost with
    | None => get_api_url self (Some "connections")
    | Some vhost => get_api_url self (Some ("vhosts/" ++ vhost ++ "/connections"))
    end in
  data <- make_get_request self url ;;
  match data with
  | None => ret (PList [])
  | Some data =>
      data <- lift (json_loads data) ;;
      if negb summary then ret data
      else
        rows <- lift (py_iter data) ;;
        result <- mapM (fun row => lift (pick row connection_fields)) rows ;;
        ret (PList result)
  end.

Definition get_consumers `{Requests} `{Json} (self : t) (vhost : option string)
  : M pyval :=
  let url :=
    match vhost with
    | None => get_api_url self (Some "consumers")
    | Some vhost => get_api_url self (Some ("consumers/" ++ vhost))
    end in
  data <- make_get_request self url ;;
  match data with
  | None => ret (PList [])
  | Some data => lift (json_loads data)
  end.

Definition exchange_fields : list (string * pyval) := [
  ("name", PNone); ("vhost", PNone); ("type", PNone); ("durable", PNone);
  ("auto_delete", PNone); ("internal", PNone);
  ("message_stats", PDict []); ("arguments", PDict [])
].

Definition get_exchanges `{Requests} `{Json} (self : t) (vhost : option string)
  : M pyval :=
  let url :=
    match vhost with
    | None => get_api_url self (Some "exchanges")
    | Some vhost => get_api_url self (Some ("exchanges/" ++ vhost))
    end in
  data <- make_get_request self url ;;
  match data with
  | None => ret (PList [])
  | Some data =>
      data <- lift (json_loads data) ;;
      rows <- lift (py_iter data) ;;
      result <- mapM (fun row => lift (pick row exchange_fields)) rows ;;
      ret (PList result)
  end.

Definition get_exchange_binding_source `{Requests} `{Json} (self : t)
    (vhost name : string) : M pyval :=
  let url :=
    get_api_url self (Some ("exchanges/" ++ vhost ++ "/" ++ name ++ "/bindings/source")) in
  data <- make_get_request self url ;;
  match data with
  | None => ret (PList [])
  | Some data => lift (json_loads data)
  end.

Definition get_exchange_binding_destination `{Requests} `{Json} (self : t)
    (vhost name : string) : M pyval :=
  let url :=
    get_api_url self
      (Some ("exchanges/" ++ vhost ++ "/" ++ name ++ "/bindings/destination")) in
  data <- make_get_request self url ;;
  match data with
  | None => ret (PList [])
  | Some data => lift (json_loads data)
  end.

Definition get_exchange `{Requests} `{Json} (self : t) (vhost name : string)
    (get_binding : bool) : M pyval :=
  let url := get_api_url self (Some ("exchanges/" ++ vhost ++ "/" ++ name)) in
  data <- make_get_request self url ;;
  match data with
  | None => ret (PDict [])
  | Some data =>
      result <- lift (json_loads data) ;;
      if get_binding then
        source <- get_exchange_binding_source self vhost name ;;
        destination <- get_exchange_binding_destination self vhost name ;;
        lift (py_setitem result "bindings"
                (PDict (Dict.of_items [("source", source);
                                       ("destination", destination)])))
      else ret result
  end.

Definition queue_fields : list (string * pyval) := [
  ("name", PNone); ("vhost", PNone); ("exclusive", PNone);
  ("auto_delete", PNone); ("durable", PNone); ("messages_persistent", PNone);
  ("messages_unacknowledged_ram", PNone); ("messages_ready_ram", PNone);
  ("messages_ram", PNone); ("consumers", PInt 0); ("state", PNone);
  ("idle_since", PNone); ("memory", PNone);
  ("message_stats", PDict []); ("arguments", PDict [])
].

Definition get_queues `{Requests} `{Json} (self : t) (vhost : option string)
  : M pyval :=
  let url :=
    match vhost with
    | None => get_api_url self (Some "queues")
    | Some vhost => get_api_url self (Some ("queues/" ++ vhost))
    end in
  data <- make_get_request self url ;;
  match data with
  | None => ret (PList [])
  | Some data =>
      data <- lift (json_loads data) ;;
      rows <- lift (py_iter data) ;;
      result <- mapM (fun row => lift (pick row queue_fields)) rows ;;
      ret (PList result)
  end.

Definition get_queue_binding `{Requests} `{Json} (self : t) (vhost name : string)
  : M pyval :=
  let url := get_api_url self (Some ("queues/" ++ vhost ++ "/" ++ name ++ "/bindings")) in
  data <- make_get_request self url ;;
  match data with
  | None => ret (PList [])
  | Some data => lift (json_loads data)
  end.

Definition get_queue `{Requests} `{Json} (self : t) (vhost name : string)
    (get_binding : bool) : M pyval :=
  let url := get_api_url self (Some ("queues/" ++ vhost ++ "/" ++ name)) in
  data <- make_get_request self url ;;
  match data with
  | None => ret (PDict [])
  | Some data =>
      data <- lift (json_loads data) ;;
      result <- lift (pick data queue_fields) ;;
      if get_binding then
        bindings <- get_queue_binding self vhost name ;;
        lift (py_setitem result "bindings" bindings)
      else ret result
  end.

End RESTConnector.

(** ** Reference collaborators

    Executable stand-ins for [json] and [pika], used to run the methods on
    concrete inputs.  The decoder and the encoder cover the fragment of JSON
    the examples need; the theorems on the accessors quantify over every
    collaborator. *)

Module Ref.

Definition dquote : ascii := "034"%char.
Definition backslash : ascii := "092"%char.

Definition is_ws (c : ascii) : bool :=
  (Ascii.eqb c " " || Ascii.eqb c "009" || Ascii.eqb c "010" || Ascii.eqb c "013")%char.

Fixpoint skip_ws (s : string) : string :=
  match s with
  | String c s' => if is_ws c then skip_ws s' else s
  | EmptyString => s
  end.

Definition is_digit (c : ascii) : bool :=
  let n := nat_of_ascii c in (Nat.leb 48 n && Nat.leb n 57)%bool.

(** The digits at the head of [s], most significant first, folded into [acc]. *)
Fixpoint digits (acc : Z) (s : string) : Z * string :=
  match s with
  | String c s' =>
      if is_digit c then digits (10 * acc + (Z.of_nat (nat_of_ascii c) - 48)) s'
      else (acc, s)
  | EmptyString => (acc, s)
  end.

(** After the digits of an integer nothing of a fraction or exponent may
    follow: those numbers are floats, outside this decoder. *)
Definition ends_number (s : string) : bool :=
  match s with
  | String c _ => negb (Ascii.eqb c "." || Ascii.eqb c "e" || Ascii.eqb c "E")%char
  | EmptyString => true
  end.

Definition natural (s : string) : option (Z * string) :=
  match s with
  | String c s' =>
      if negb (is_digit c) then None
      else if (Ascii.eqb c "0" && match s' with String d _ => is_digit d | _ => false end)%bool
      then None
      else let '(n, rest) := digits 0 s in
           if ends_number rest then Some (n, rest) else None
  | EmptyString => None
  end.

(** The body of a string literal, after the opening quote, with the short
    escapes; a [\u] escape is outside this decoder. *)
Fixpoint string_body (s : string) : option (string * string) :=
  match s with
  | EmptyString => None
  | String c s' =>
      if Ascii.eqb c dquote then Some (EmptyString, s')
      else if Ascii.eqb c backslash then
        match s' with
        | String e s'' =>
            let unescaped :=
              (if Ascii.eqb e dquote then Some dquote
               else if Ascii.eqb e backslash then Some backslash
               else if Ascii.eqb e "/" then Some "/"
               else if Ascii.eqb e "n" then Some "010"
               else if Ascii.eqb e "t" then Some "009"
               else if Ascii.eqb e "r" then Some "013"
               else if Ascii.eqb e "b" then Some "008"
               else if Ascii.eqb e "f" then Some "012"
               else None)%char in
            match unescaped, string_body s'' with
            | Some u, Some (body, rest) => Some (String u body, rest)
            | _, _ => None
            end
        | EmptyString => None
        end
      else if Nat.ltb (nat_of_ascii c) 32 then None
      else
        match string_body s' with
        | Some (body, rest) => Some (String c body, rest)
        | None => None
        end
  end.

Definition literal (word : string) (v : pyval) (s : string) : option (pyval * string) :=
  if String.prefix word s
  then Some (v, substring (String.length word) (String.length s - String.length word) s)
  else None.

Section Containers.

Variable value : string -> option (pyval * string).

(** The elements of an array after the first, up to the closing bracket. *)
Fixpoint elements (fuel : nat) (s : string) : option (list pyval * string) :=
  match fuel with
  | O => None
  | S fuel' =>
      match skip_ws s with
      | String "]" rest => Some ([], rest)
      | String "," rest =>
          match value rest with
          | Some (v, rest') =>
              match elements fuel' rest' with
              | Some (vs, rest'') => Some (v :: vs, rest'')
              | None => None
              end
          | None => None
          end
      | _ => None
      end
  end.

Definition member (s : string) : option ((string * pyval) * string) :=
  match skip_ws s with
  | String c rest =>
      if Ascii.eqb c dquote then
        match string_body rest with
        | Some (k, rest') =>
            match skip_ws rest' with
            | String ":" rest'' =>
                match value rest'' with
                | Some (v, rest''') => Some ((k, v), rest''')
                | None => None
                end
            | _ => None
            end
        | None => None
        end
      else None
  | EmptyString => None
  end.

(** The members of an object after the first, up to the closing brace. *)
Fixpoint members (fuel : nat) (s : string) : option (list (string * pyval) * string) :=
  match fuel with
  | O => None
  | S fuel' =>
      match skip_ws s with
      | String "}" rest => Some ([], rest)
      | String "," rest =>
          match member rest with
          | Some (kv, rest') =>
              match members fuel' rest' with
              | Some (kvs, rest'') => Some (kv :: kvs, rest'')
              | None => None
              end
          | None => None
          end
      | _ => None
      end
  end.

End Containers.

Fixpoint value (fuel : nat) (s : string) : option (pyval * string) :=
  match fuel with
  | O => None
  | S fuel' =>
      match skip_ws s with
      | EmptyString => None
      | String c rest =>
          if Ascii.eqb c "n" then literal "ull" PNone rest
          else if Ascii.eqb c "t" then literal "rue" (PBool true) rest
          else if Ascii.eqb c "f" then literal "alse" (PBool false) rest
          else if Ascii.eqb c dquote then
            match string_body rest with
            | Some (str, rest') => Some (PStr str, rest')
            | None => None
            end
          else if Ascii.eqb c "-" then
            match natural rest with
            | Some (n, rest') => Some (PInt (- n), rest')
            | None => None
            end
          else if Ascii.eqb c "[" then
            match skip_ws rest with
            | String "]" rest' => Some (PList [], rest')
            | _ =>
                match value fuel' rest with
                | Some (v, rest') =>
                    match elements (value fuel') fuel' rest' with
                    | Some (vs, rest'') => Some (PList (v :: vs), rest'')
                    | None => None
                    end
                | None => None
                end
            end
          else if Ascii.eqb c "{" then
            match skip_ws rest with
            | String "}" rest' => Some (PDict [], rest')
            | _ =>
                match member (value fuel') rest with
                | Some (kv, rest') =>
                    match members (value fuel') fuel' rest' with
                    | Some (kvs, rest'') => Some (PDict (Dict.of_items (kv :: kvs)), rest'')
                    | None => None
                    end
                | None => None
                end
            end
          else
            match natural (String c rest) with
            | Some (n, rest') => Some (PInt n, rest')
            | None => None
            end
      end
  end.

(** A whole document: one value, then only white space. *)
Definition loads (s : string) : outcome pyval :=
  match value (S (String.length s)) s with
  | Some (v, rest) =>
      match skip_ws rest with
      | EmptyString => Ok v
      | _ => Raise JSONDecodeError
      end
  | None => Raise JSONDecodeError
  end.

Definition hex_digit (n : nat) : ascii :=
  if Nat.ltb n 10 then ascii_of_nat (48 + n) else ascii_of_nat (87 + n).

(** One character of a string as [json.dumps] writes it with
    [ensure_ascii]: the short escapes, [\u00xx] for the other characters
    outside the printable ASCII range. *)
Definition escape (c : ascii) : string :=
  let n := nat_of_ascii c in
  (if Ascii.eqb c dquote then String backslash (String dquote EmptyString)
   else if Ascii.eqb c backslash then String backslash (String backslash EmptyString)
   else if Ascii.eqb c "010" then String backslash "n"
   else if Ascii.eqb c "013" then String backslash "r"
   else if Ascii.eqb c "009" then String backslash "t"
   else if Ascii.eqb c "008" then String backslash "b"
   else if Ascii.eqb c "012" then String backslash "f"
   else if (Nat.ltb n 32 || Nat.ltb 126 n)%bool then
     String backslash
       (String "u" (String "0" (String "0"
          (String (hex_digit (Nat.div n 16))
             (String (hex_digit (Nat.modulo n 16)) EmptyString)))))
   else String c EmptyString)%char.

Fixpoint escaped (s : string) : string :=
  match s with
  | EmptyString => EmptyString
  | String c s' => escape c ++ escaped s'
  end.

Definition quoted (s : string) : string :=
  String dquote (escaped s ++ String dquote EmptyString).

(** Of the floats only the zeros, the infinities and the NaN are printed;
    the digits of another float are outside this encoder (it prints
    nothing for it). *)
Definition float_repr (f : spec_float) : string :=
  match f with
  | S754_zero false => "0.0"
  | S754_zero true => "-0.0"
  | S754_infinity false => "Infinity"
  | S754_infinity true => "-Infinity"
  | S754_nan => "NaN"
  | S754_finite _ _ _ => ""
  end.

(** [sep.join(parts)] *)
Fixpoint joined (sep : string) (parts : list string) : string :=
  match parts with
  | [] => ""
  | part :: parts' =>
      match parts' with
      | [] => part
      | _ :: _ => part ++ sep ++ joined sep parts'
      end
  end.

(** [json.dumps] with its default separators. *)
Fixpoint dumps (v : pyval) : string :=
  match v with
  | PNone => "null"
  | PBool true => "true"
  | PBool false => "false"
  | PInt n => str_int n
  | PFloat f => float_repr f
  | PStr s => quoted s
  | PList vs => "[" ++ joined ", " (map dumps vs) ++ "]"
  | PDict kvs =>
      "{" ++ joined ", " (map (fun '(k, v) => quoted k ++ ": " ++ dumps v) kvs) ++ "}"
  end.

Definition json : Json := {| json_loads := loads; json_dumps := dumps |}.

(** *** pika.URLParameters

    What [pika.URLParameters(url)] does with a URL, after pika's
    [connection.py] and the [urlparse] of Python 3 it calls: the scheme is
    rewritten and checked, the URL is taken apart as [urlparse] does, host
    name, port, credentials and virtual host are read from the parts, with
    pika's defaults for the parts that are missing and with the exception
    of the step that fails.  Strings are sequences of bytes.  Four things
    are outside this model: the options of a query string (a URL with a
    query that is not empty is refused with [ValueError], as pika refuses
    the options it does not know), what [urlparse] does with white space
    and control characters (they are kept here), the check of the address
    between brackets that newer versions of [urlparse] make (only a bracket
    without its partner is refused here), and the decoding as UTF-8 of
    escaped bytes above 7F (they are kept as bytes here). *)

Definition is_upper (c : ascii) : bool :=
  let n := nat_of_ascii c in (Nat.leb 65 n && Nat.leb n 90)%bool.

Definition is_lower (c : ascii) : bool :=
  let n := nat_of_ascii c in (Nat.leb 97 n && Nat.leb n 122)%bool.

Definition is_alpha (c : ascii) : bool := (is_upper c || is_lower c)%bool.

Definition lower_char (c : ascii) : ascii :=
  if is_upper c then ascii_of_nat (nat_of_ascii c + 32) else c.

(** [s.lower()] *)
Fixpoint lower (s : string) : string :=
  match s with
  | EmptyString => EmptyString
  | String c s' => String (lower_char c) (lower s')
  end.

(** Every character of [s] satisfies [f]. *)
Fixpoint all (f : ascii -> bool) (s : string) : bool :=
  match s with
  | EmptyString => true
  | String c s' => (f c && all f s')%bool
  end.

(** [c in s] *)
Definition has (c : ascii) (s : string) : bool :=
  negb (all (fun x => negb (Ascii.eqb x c)) s).

(** [s] up to its first character that satisfies [f], and that character
    with what follows it, if there is one. *)
Fixpoint break (f : ascii -> bool) (s : string) : string * option (ascii * string) :=
  match s with
  | EmptyString => (EmptyString, None)
  | String c s' =>
      if f c then (EmptyString, Some (c, s'))
      else let '(before, rest) := break f s' in (String c before, rest)
  end.

(** [s.rpartition(c)]: what is before and after the last [c] of [s]. *)
Fixpoint rbreak (c : ascii) (s : string) : option (string * string) :=
  match s with
  | EmptyString => None
  | String x s' =>
      match rbreak c s' with
      | Some (before, after) => Some (String x before, after)
      | None => if Ascii.eqb x c then Some (EmptyString, s') else None
      end
  end.

Definition hex_value (c : ascii) : option nat :=
  let n := nat_of_ascii c in
  if is_digit c then Some (n - 48)%nat
  else if (Nat.leb 97 n && Nat.leb n 102)%bool then Some (n - 87)%nat
  else if (Nat.leb 65 n && Nat.leb n 70)%bool then Some (n - 55)%nat
  else None.

(** [urllib.parse.unquote]: a percent sign followed by two hexadecimal
    digits stands for the byte they name; any other percent sign is kept. *)
Fixpoint unquote (s : string) : string :=
  match s with
  | EmptyString => EmptyString
  | String c s' =>
      if Ascii.eqb c "%" then
        match s' with
        | String a (String b s'') =>
            match hex_value a, hex_value b with
            | Some x, Some y => String (ascii_of_nat (16 * x + y)%nat) (unquote s'')
            | _, _ => String c (unquote s')
            end
        | _ => String c (unquote s')
        end
      else String c (unquote s')
  end.

(** [if url[0:4].lower() == 'amqp': url = 'http' + url[4:]] *)
Definition fix_scheme (url : string) : string :=
  if String.eqb (lower (substring 0 4 url)) "amqp"
  then "http" ++ substring 4 (String.length url - 4) url
  else url.

Definition scheme_char (c : ascii) : bool :=
  (is_alpha c || is_digit c || Ascii.eqb c "+" || Ascii.eqb c "-" || Ascii.eqb c ".")%bool.

(** The scheme of a URL, in lower case, and what follows its colon; no
    scheme when the text before the first colon is not a scheme name. *)
Definition split_scheme (url : string) : string * string :=
  match break (fun c => Ascii.eqb c ":") url with
  | (String c before, Some (_, rest)) =>
      if (is_alpha c && all scheme_char before)%bool
      then (lower (String c before), rest)
      else (EmptyString, url)
  | _ => (EmptyString, url)
  end.

Definition ends_netloc (c : ascii) : bool :=
  (Ascii.eqb c "/" || Ascii.eqb c "?" || Ascii.eqb c "#")%bool.

(** After [//], the network location up to the first of [/], [?] and [#]. *)
Definition split_netloc (rest : string) : string * string :=
  match rest with
  | String "/" (String "/" r) =>
      let '(netloc, tail) := break ends_netloc r in
      (netloc, match tail with Some (c, t) => String c t | None => EmptyString end)
  | _ => (EmptyString, rest)
  end.

(** The parameters [;...] of the last segment of a path are cut off. *)
Definition strip_params (path : string) : string :=
  match rbreak "/" path with
  | Some (dirs, last) => dirs ++ String "/" (fst (break (fun c => Ascii.eqb c ";") last))
  | None => fst (break (fun c => Ascii.eqb c ";") path)
  end.

Record url_parts : Type := mk_parts {
  u_scheme : string;
  u_netloc : string;
  u_path : string;
  u_query : string
}.

(** [urlparse(url)]: [ValueError] for a bracket without its partner in the
    network location. *)
Definition urlparse (url : string) : outcome url_parts :=
  let '(scheme, rest) := split_scheme url in
  let '(netloc, rest) := split_netloc rest in
  if xorb (has "[" netloc) (has "]" netloc) then Raise ValueError
  else
    let rest := fst (break (fun c => Ascii.eqb c "#") rest) in
    let '(path, query) := break (fun c => Ascii.eqb c "?") rest in
    Ok (mk_parts scheme netloc (strip_params path)
          (match query with Some (_, q) => q | None => EmptyString end)).

(** The host name and the text of the port in a network location. *)
Definition hostinfo (netloc : string) : string * string :=
  let hostinfo := match rbreak "@" netloc with Some (_, hi) => hi | None => netloc end in
  match break (fun c => Ascii.eqb c "[") hostinfo with
  | (_, Some (_, bracketed)) =>
      let '(hostname, tail) := break (fun c => Ascii.eqb c "]") bracketed in
      (hostname,
       match tail with
       | Some (_, t) =>
           match break (fun c => Ascii.eqb c ":") t with
           | (_, Some (_, port)) => port
           | (_, None) => EmptyString
           end
       | None => EmptyString
       end)
  | (_, None) =>
      let '(hostname, tail) := break (fun c => Ascii.eqb c ":") hostinfo in
      (hostname, match tail with Some (_, port) => port | None => EmptyString end)
  end.

(** [parts.hostname]: in lower case, but for the zone after a percent sign;
    [None] when empty. *)
Definition hostname (netloc : string) : option string :=
  match fst (hostinfo netloc) with
  | EmptyString => None
  | name =>
      let '(name, zone) := break (fun c => Ascii.eqb c "%") name in
      Some (lower name ++ match zone with Some (c, z) => String c z | None => EmptyString end)
  end.

(** [parts.port]: [ValueError] when the text is no number up to 65535. *)
Definition port (netloc : string) : outcome (option Z) :=
  match snd (hostinfo netloc) with
  | EmptyString => Ok None
  | text =>
      if all is_digit text then
        let n := fst (digits 0 text) in
        if n <=? 65535 then Ok (Some n) else Raise ValueError
      else Raise ValueError
  end.

(** The credentials: those before the last [@], unquoted; [guest] and
    [guest] when there are none; [TypeError] from unquoting a password that
    is not there. *)
Definition credentials (netloc : string) : outcome Credentials :=
  match rbreak "@" netloc with
  | Some (userinfo, _) =>
      match break (fun c => Ascii.eqb c ":") userinfo with
      | (username, Some (_, password)) =>
          Ok (mkCredentials (Some (unquote username)) (Some (unquote password)))
      | (_, None) => Raise TypeError
      end
  | None => Ok (mkCredentials (Some "guest") (Some "guest"))
  end.

(** The virtual host: [url_unquote(parts.path.split('/')[1])] for a path of
    more than one character, [/] otherwise. *)
Definition virtual_host (path : string) : outcome string :=
  if Nat.ltb 1 (String.length path) then
    match break (fun c => Ascii.eqb c "/") path with
    | (_, Some (_, after)) => Ok (unquote (fst (break (fun c => Ascii.eqb c "/") after)))
    | (_, None) => Raise IndexError
    end
  else Ok "/".

Definition url_parameters (url : string) : outcome Parameters :=
  match urlparse (fix_scheme url) with
  | Raise e => Raise e
  | Ok parts =>
      let ssl := String.eqb (u_scheme parts) "https" in
      if negb (ssl || String.eqb (u_scheme parts) "http"
                   || String.eqb (u_scheme parts) "")%bool
      then Raise ValueError
      else
        let host :=
          match hostname (u_netloc parts) with
          | Some name => name
          | None => "localhost"
          end in
        match port (u_netloc parts) with
        | Raise e => Raise e
        | Ok number =>
            let number :=
              match number with
              | Some n => n
              | None => if ssl then 5671 else 5672
              end in
            match credentials (u_netloc parts) with
            | Raise e => Raise e
            | Ok creds =>
                match virtual_host (u_path parts) with
                | Raise e => Raise e
                | Ok vhost =>
                    match u_query parts with
                    | EmptyString => Ok (mkParameters host number vhost creds)
                    | _ => Raise ValueError
                    end
                end
            end
        end
  end.

(** [pika] with a broker that accepts the connection numbered [k] (from 0)
    when [accepts k] says so, and hands out [k] as the connection. *)
Definition pika (accepts : nat -> bool) : Pika := {|
  URLParameters := url_parameters;
  ConnectionParameters := fun host port vhost credentials _ =>
    match host, vhost with
    | Some host, Some vhost => Ok (mkParameters host port vhost credentials)
    | _, _ => Raise TypeError
    end;
  BlockingConnection := fun tr _ =>
    if accepts (dials tr) then Some (dials tr) else None
|}.

(** [requests] against a server that answers every request alike. *)
Definition server (status : Z) (body : string) : Requests := {|
  requests_get := fun _ _ _ => Ok (mkResponse status body)
|}.

End Ref.

(** ** Vocabulary of the statements *)

(** What a call returned or raised, and the trace it left. *)
Definition result {A} (m : M A) (tr : trace) : outcome A := fst (m tr).
Definition after {A} (m : M A) (tr : trace) : trace := snd (m tr).

(** A computation that leaves the trace as it found it. *)
Definition silent {A} (m : M A) : Prop := forall tr, after m tr = tr.

(** [len(d)] and [d.keys()] of a value that is a dict. *)
Definition py_keys (v : pyval) : list string :=
  match v with
  | PDict kvs => Dict.keys kvs
  | _ => []
  end.

Definition py_lookup (v : pyval) (k : string) : option pyval :=
  match v with
  | PDict kvs => Dict.lookup k kvs
  | _ => None
  end.

(** A queue record of [n] fields for a queue of which upstream only gave the
    name: [consumers] is 0, [message_stats] and [arguments] are empty dicts,
    every other field is [None]. *)
Definition bare_queue_record (n : nat) (name : string) (r : pyval) : Prop :=
  (exists kvs, r = PDict kvs) /\
  List.length (py_keys r) = n /\
  NoDup (py_keys r) /\
  py_lookup r "name" = Some (PStr name) /\
  py_lookup r "consumers" = Some (PInt 0) /\
  py_lookup r "message_stats" = Some (PDict []) /\
  py_lookup r "arguments" = Some (PDict []) /\
  forall k, In k (py_keys r) ->
    k <> "name" -> k <> "consumers" -> k <> "message_stats" -> k <> "arguments" ->
    py_lookup r k = Some PNone.

(** [needle in hay], for strings. *)
Definition contains (needle hay : string) : Prop :=
  exists pre post, hay = pre ++ needle ++ post.

(** The characters a URI may hold anywhere without escaping them: letters,
    digits, [-], [.], [_] and [~]. *)
Definition unreserved (c : ascii) : bool :=
  (Ref.is_alpha c || Ref.is_digit c || Ascii.eqb c "-" || Ascii.eqb c "."
   || Ascii.eqb c "_" || Ascii.eqb c "~")%bool.

(** The characters of a host name written in lower case: lower-case
    letters, digits, [-] and [.]. *)
Definition host_char (c : ascii) : bool :=
  (Ref.is_lower c || Ref.is_digit c || Ascii.eqb c "-" || Ascii.eqb c ".")%bool.

(** The end of an API URL: nothing, or [/] and the resource path. *)
Definition resource (api : option string) : string :=
  match api with
  | None => ""
  | Some api => "/" ++ api
  end.

(** The instances of the examples: [RESTConnector(host='h', username='u',
    password='pw')], the same with [port=15672], and the parameters of
    [amqp://u:p@h/vh]. *)
Module Example.

Definition connector : RESTConnector.t :=
  RESTConnector.__init__ (Some "h") None None (Some "u") (Some "pw") (Some true).

Definition connector_with_port : RESTConnector.t :=
  RESTConnector.__init__ (Some "h") (Some 15672) None (Some "u") (Some "pw") (Some true).

Definition amqp_uri : string := "amqp://u:p@h/vh".

Definition parameters : Parameters :=
  mkParameters "h" 5672 "vh" (mkCredentials (Some "u") (Some "p")).

(** A broker that refuses every connection, and one that accepts the first
    connection only. *)
Definition down : Pika := Ref.pika (fun _ => false).
Definition up_once : Pika := Ref.pika (fun k => Nat.eqb k 0).

End Example.

(** The response bodies of the examples. *)
Module Body.

(** [[{"name":"q1"}]] *)
Definition one_queue : string :=
  "[{" ++ Ref.quoted "name" ++ ":" ++ Ref.quoted "q1" ++ "}]".

(** [{"object_totals": {}, "queue_totals": {}}] *)
Definition overview_without_stats : string :=
  "{" ++ Ref.quoted "object_totals" ++ ": {}, " ++ Ref.quoted "queue_totals" ++ ": {}}".

(** [{"name": "e", "policy": null}] *)
Definition exchange_with_policy : string :=
  "{" ++ Ref.quoted "name" ++ ": " ++ Ref.quoted "e" ++ ", "
      ++ Ref.quoted "policy" ++ ": null}".

End Body.

(** ** Vocabulary of the further statements *)

(** The sleeps and the log lines of a trace, oldest first. *)
Definition sleeps (tr : trace) : list Z :=
  flat_map (fun e => match e with EvSleep n => [n] | _ => [] end) tr.

Definition logs (tr : trace) : list (level * string) :=
  flat_map (fun e => match e with EvLog lv msg => [(lv, msg)] | _ => [] end) tr.

(** The pauses after the failed attempts 1 to [n]: twice the number of the
    attempt, at most 30. *)
Definition backoff (n : nat) : list Z :=
  map (fun i => Z.min (Z.of_nat i * 2) 30) (seq 1 n).

(** What a [connect] that fails [n + 1] times writes to the log: a warning
    for each attempt, then one error. *)
Definition failure_log (params : Parameters) (n : nat) : list (level * string) :=
  (map (fun i => (WARNING, AMQPConnector.msg_retry (Z.of_nat i) params)) (seq 1 (S n))
   ++ [(ERROR, AMQPConnector.msg_cannot (Z.of_nat (S n)) params)])%list.

(** The events of the loop entered after [a] attempts when the next
    [n + 1] attempts fail and the last of them exhausts the budget. *)
Fixpoint failing_run (params : Parameters) (a : Z) (n : nat) : trace :=
  match n with
  | O =>
      [EvDial params;
       EvLog WARNING (AMQPConnector.msg_retry (a + 1) params);
       EvLog ERROR (AMQPConnector.msg_cannot (a + 1) params)]
  | S n' =>
      EvDial params
        :: EvLog WARNING (AMQPConnector.msg_retry (a + 1) params)
        :: EvSleep (Z.min ((a + 1) * 2) 30)
        :: failing_run params (a + 1) n'
  end.

(** The record of the keys of [fields] for an upstream dict [d]: the value
    upstream gave, or the default of the key. *)
Definition normalised (fields : list (string * pyval)) (d : Dict.t)
  : list (string * pyval) :=
  map (fun '(k, default) =>
         (k, match Dict.lookup k d with Some v => v | None => default end))
      fields.

(** The log line of a request, if it was refused. *)
Definition refusal_log (url : string) (o : outcome Response) : trace :=
  match o with
  | Ok r =>
      if status_code r =? 200 then []
      else [EvLog ERROR (RESTConnector.msg_request url r)]
  | Raise _ => []
  end.

(** The trace after one GET request to the resource [api]. *)
Definition one_get `{Requests} (self : RESTConnector.t) (api : string) (tr : trace)
  : trace :=
  let url := RESTConnector.get_api_url self (Some api) in
  (tr ++ EvGet url (RESTConnector.auth self)
      :: refusal_log url (requests_get tr url (RESTConnector.auth self)))%list.

(** The transport answers the GET request for the resource [api], made at
    the history [tr] with the credentials of [self], with a response whose
    status code is not 200. *)
Definition refused `{Requests} (self : RESTConnector.t) (api : string) (tr : trace)
  : Prop :=
  exists r,
    requests_get tr (RESTConnector.get_api_url self (Some api)) (RESTConnector.auth self)
      = Ok r /\
    status_code r <> 200.

(** The collaborators of the further examples. *)
Module Scenario.

(** A server that answers 404 to the requests for one URL and 200 with an
    empty list to all others. *)
Definition refusing_only (url : string) : Requests := {|
  requests_get := fun _ u _ =>
    if String.eqb u url then Ok (mkResponse 404 "Not Found") else Ok (mkResponse 200 "[]")
|}.

(** A broker that accepts the third connection only. *)
Definition up_at_third : Pika := Ref.pika (fun k => Nat.eqb k 2).

(** A server that answers the request numbered [k] (from 0) with the [k]-th
    response of a list, and with 404 after the end of the list. *)
Definition scripted (answers : list Response) : Requests := {|
  requests_get := fun tr _ _ =>
    Ok (nth (List.length (requests tr)) answers (mkResponse 404 "Not Found"))
|}.

(** A transport that cannot reach the server. *)
Definition unreachable : Requests := {|
  requests_get := fun _ _ _ => Raise RequestException
|}.

(** [[{"name": "a"}, {"name": "b"}]] *)
Definition two_vhosts : string :=
  "[{" ++ Ref.quoted "name" ++ ": " ++ Ref.quoted "a" ++ "}, {"
       ++ Ref.quoted "name" ++ ": " ++ Ref.quoted "b" ++ "}]".

(** [[{"name": "a"}, {"tracing": false}]] *)
Definition vhost_without_name : string :=
  "[{" ++ Ref.quoted "name" ++ ": " ++ Ref.quoted "a" ++ "}, {"
       ++ Ref.quoted "tracing" ++ ": false}]".

(** [{"name": "q1", "consumers": 2, "policy": null}] *)
Definition queue : string :=
  "{" ++ Ref.quoted "name" ++ ": " ++ Ref.quoted "q1" ++ ", "
      ++ Ref.quoted "consumers" ++ ": 2, " ++ Ref.quoted "policy" ++ ": null}".

(** [[{"name": "q1", "consumers": 2, "policy": null}]] *)
Definition queues : string := "[" ++ queue ++ "]".

(** [[{"routing_key": "k"}]] *)
Definition bindings : string :=
  "[{" ++ Ref.quoted "routing_key" ++ ": " ++ Ref.quoted "k" ++ "}]".

(** [{"error": "not_authorised"}] *)
Definition error_object : string :=
  "{" ++ Ref.quoted "error" ++ ": " ++ Ref.quoted "not_authorised" ++ "}".

(** [{"object_totals": {"queues": 1}, "message_stats": {}, "queue_totals": {},
    "node": "n"}] *)
Definition overview : string :=
  "{" ++ Ref.quoted "object_totals" ++ ": {" ++ Ref.quoted "queues" ++ ": 1}, "
      ++ Ref.quoted "message_stats" ++ ": {}, " ++ Ref.quoted "queue_totals" ++ ": {}, "
      ++ Ref.quoted "node" ++ ": " ++ Ref.quoted "n" ++ "}".

End Scenario.

(** ** The monad *)

Lemma bind_ok {A B} (m : M A) (k : A -> M B) tr a tr' :
  m tr = (Ok a, tr') -> bind m k tr = k a tr'.
Proof. intros E. unfold bind. rewrite E. reflexivity. Qed.

Lemma bind_raise {A B} (m : M A) (k : A -> M B) tr e tr' :
  m tr = (Raise e, tr') -> bind m k tr = (Raise e, tr').
Proof. intros E. unfold bind. rewrite E. reflexivity. Qed.

Lemma after_bind {A B} (m : M A) (k : A -> M B) tr :
  after (bind m k) tr =
  match result m tr with
  | Ok a => after (k a) (after m tr)
  | Raise _ => after m tr
  end.
Proof.
  unfold after, result, bind. destruct (m tr) as [[a | e] tr']; reflexivity.
Qed.

Lemma result_bind {A B} (m : M A) (k : A -> M B) tr (b : B) :
  result (bind m k) tr = Ok b ->
  exists a, result m tr = Ok a /\ result (k a) (after m tr) = Ok b.
Proof.
  unfold result, after, bind. destruct (m tr) as [[a | e] tr']; simpl; intros E.
  - exists a. split; [reflexivity | exact E].
  - discriminate.
Qed.

Lemma silent_ret {A} (a : A) : silent (ret a).
Proof. intros tr. reflexivity. Qed.

Lemma silent_lift {A} (o : outcome A) : silent (lift o).
Proof. intros tr. reflexivity. Qed.

Lemma silent_bind {A B} (m : M A) (k : A -> M B) :
  silent m -> (forall a, silent (k a)) -> silent (bind m k).
Proof.
  intros Hm Hk tr. rewrite after_bind, Hm.
  destruct (result m tr); [apply Hk | reflexivity].
Qed.

Lemma silent_mapM {A B} (f : A -> M B) (l : list A) :
  (forall a, silent (f a)) -> silent (mapM f l).
Proof.
  intros Hf. induction l as [| x l IH]; simpl.
  - apply silent_ret.
  - apply silent_bind; [apply Hf | intros y].
    apply silent_bind; [exact IH | intros ys; apply silent_ret].
Qed.

Create HintDb silent.
#[local] Hint Resolve silent_ret silent_lift silent_bind silent_mapM : silent.

Lemma dials_app (tr1 tr2 : trace) : dials (tr1 ++ tr2) = (dials tr1 + dials tr2)%nat.
Proof. unfold dials. rewrite filter_app, length_app. reflexivity. Qed.

Lemma requests_app (tr1 tr2 : trace) :
  requests (tr1 ++ tr2) = (requests tr1 ++ requests tr2)%list.
Proof. unfold requests. apply flat_map_app. Qed.

(** ** AMQPConnector.connect *)

Section Connect.

Context `{Pika}.
Import AMQPConnector.

(** The loop from a point on which every attempt fails: the instance is
    left as it was, and the loop dials once more than the budget still
    allows. *)
Lemma loop_all_fail (n : nat) :
  forall (self : t) (attempts_retry attempts : Z) (tr : trace),
    (forall evs, BlockingConnection (tr ++ evs) (parameters self) = None) ->
    Z.to_nat (attempts_retry - attempts) = n ->
    exists evs,
      loop self attempts_retry attempts tr = (Ok self, (tr ++ evs)%list) /\
      dials evs = S n.
Proof.
  induction n as [| n IH]; intros self ar a tr Hfail Hn;
    pose proof (Hfail []) as Hnow; rewrite app_nil_r in Hnow;
    rewrite loop_equation_1; cbv zeta;
    unfold bind, dial, logger, sleep, emit, ret; rewrite Hnow;
    destruct (Z_gt_dec (a + 1) ar) as [Hgt | Hle]; try lia.
  - eexists. split.
    + rewrite <- !app_assoc. reflexivity.
    + reflexivity.
  - destruct (IH self ar (a + 1)
                (((tr ++ [EvDial (parameters self)])
                    ++ [EvLog WARNING (msg_retry (a + 1) (parameters self))])
                    ++ [EvSleep (Z.min ((a + 1) * 2) 30)])%list)
      as (evs & Hloop & Hd).
    + intros evs. rewrite <- !app_assoc. apply Hfail.
    + lia.
    + rewrite Hloop. eexists. split.
      * rewrite <- !app_assoc. reflexivity.
      * rewrite !dials_app, Hd. reflexivity.
Qed.

(** The constructor stores no connection. *)
Lemma init_connection (a : args) (self : t) :
  __init__ a = Ok self -> connection self = None.
Proof.
  unfold __init__.
  destruct (match amqp_uri a with Some _ => _ | None => _ end) as [params | e];
    [| discriminate].
  destruct (has_max_attempt_retry (options a)); intros E; inversion E; reflexivity.
Qed.

(** C1: let [N] be the attempt budget: the configured maximum
    [max_attempt_retry] when [connect] is called without override, and
    [min(n, max_attempt_retry)] when it is called with the override [n]
    (0 included).  If [N >= 0] and the broker connection fails on every
    attempt, [connect] on an instance that holds no connection dials
    exactly [N + 1] times and returns [None], without raising. *)
Theorem connect_all_fail_attempts
    (self : t) (attempts_retry : option Z) (N : Z) (tr : trace) :
  (forall h, BlockingConnection h (parameters self) = None) ->
  connection self = None ->
  N = match attempts_retry with
      | None => max_attempt_retry self
      | Some n => Z.min n (max_attempt_retry self)
      end ->
  0 <= N ->
  result (connect self attempts_retry) tr = Ok (None, self) /\
  dials (after (connect self attempts_retry) tr) = (dials tr + (Z.to_nat N + 1))%nat.
Proof.
  intros Hfail Hnone HN Hb.
  assert (Hbudget : budget self attempts_retry = N)
    by (rewrite HN; destruct attempts_retry; reflexivity).
  destruct (loop_all_fail (Z.to_nat N) self (budget self attempts_retry) 0 tr)
    as (evs & Hloop & Hd).
  - intros evs. apply Hfail.
  - rewrite Hbudget. f_equal. lia.
  - unfold result, after, connect.
    rewrite (bind_ok _ _ _ _ _ Hloop). unfold ret. simpl.
    rewrite Hnone, dials_app, Hd. split; [reflexivity | lia].
Qed.

(** C10: when the instance holds a connection from an earlier successful
    [connect], a [connect] in which every attempt fails returns that
    connection, not [None], and the instance still holds it. *)
Theorem connect_all_fail_keeps_connection
    (self : t) (attempts_retry : option Z) (tr : trace) (conn : handle) :
  connection self = Some conn ->
  (forall evs, BlockingConnection (tr ++ evs) (parameters self) = None) ->
  result (connect self attempts_retry) tr = Ok (Some conn, self).
Proof.
  intros Hconn Hfail.
  destruct (loop_all_fail (Z.to_nat (budget self attempts_retry - 0)) self
              (budget self attempts_retry) 0 tr Hfail eq_refl) as (evs & Hloop & _).
  unfold result, connect.
  rewrite (bind_ok _ _ _ _ _ Hloop). unfold ret. simpl.
  rewrite Hconn. reflexivity.
Qed.

End Connect.

(** ** Normalisation of upstream records *)

Section Normalisation.

Lemma set_fresh (k : string) (v : pyval) (d : Dict.t) :
  ~ In k (Dict.keys d) -> Dict.set k v d = (d ++ [(k, v)])%list.
Proof.
  induction d as [| [k' v'] d IH]; simpl; intros Hk; [reflexivity |].
  destruct (String.eqb_spec k k') as [-> | Hne].
  - exfalso. apply Hk. left. reflexivity.
  - rewrite IH; [reflexivity |]. intros Hin. apply Hk. right. exact Hin.
Qed.

Lemma fold_set_fresh (kvs : list (string * pyval)) :
  forall acc : Dict.t,
    NoDup (Dict.keys acc ++ map fst kvs) ->
    fold_left (fun d kv => Dict.set (fst kv) (snd kv) d) kvs acc = (acc ++ kvs)%list.
Proof.
  induction kvs as [| [k v] kvs IH]; intros acc Hnd; simpl.
  - rewrite app_nil_r. reflexivity.
  - simpl in Hnd. rewrite set_fresh.
    + rewrite IH.
      * rewrite <- app_assoc. reflexivity.
      * unfold Dict.keys in *. rewrite map_app, <- app_assoc. exact Hnd.
    + intros Hin. apply NoDup_remove_2 in Hnd. apply Hnd.
      apply in_or_app. left. exact Hin.
Qed.

(** A dict display with distinct keys holds its items in the order written. *)
Lemma of_items_distinct (kvs : list (string * pyval)) :
  NoDup (map fst kvs) -> Dict.of_items kvs = kvs.
Proof. intros Hnd. unfold Dict.of_items. rewrite fold_set_fresh; auto. Qed.

Lemma record_of_keys (row : pyval) (fields kvs : list (string * pyval)) :
  record_of row fields = Ok kvs -> map fst kvs = map fst fields.
Proof.
  revert kvs. induction fields as [| [k d] fields IH]; simpl; intros kvs E.
  - inversion E. reflexivity.
  - destruct (py_get row k d); [| discriminate].
    destruct (record_of row fields) as [kvs' |]; [| discriminate].
    inversion E. simpl. rewrite (IH kvs' eq_refl). reflexivity.
Qed.

(** Every record [pick] builds has exactly the keys of the table, in its
    order: what upstream adds is dropped, what it lacks is defaulted. *)
Lemma pick_keys (row r : pyval) (fields : list (string * pyval)) :
  NoDup (map fst fields) ->
  pick row fields = Ok r ->
  py_keys r = map fst fields.
Proof.
  intros Hnd. unfold pick.
  destruct (record_of row fields) as [kvs |] eqn:E; [| discriminate].
  intros Er. inversion Er. simpl.
  apply record_of_keys in E. rewrite of_items_distinct.
  - exact E.
  - rewrite E. exact Hnd.
Qed.

Lemma pick_value (row r : pyval) (fields : list (string * pyval))
    (k : string) (default : pyval) :
  NoDup (map fst fields) ->
  In (k, default) fields ->
  pick row fields = Ok r ->
  exists v, py_lookup r k = Some v /\ py_get row k default = Ok v.
Proof.
  intros Hnd Hin. unfold pick.
  destruct (record_of row fields) as [kvs |] eqn:E; [| discriminate].
  intros Er. inversion Er. subst r. simpl.
  rewrite of_items_distinct
    by (rewrite (record_of_keys _ _ _ E); exact Hnd).
  clear Er. revert kvs E.
  induction fields as [| [k' d'] fields IH]; [destruct Hin |].
  simpl. intros kvs E.
  destruct (py_get row k' d') as [v' |] eqn:Eget; [| discriminate].
  destruct (record_of row fields) as [kvs' |] eqn:E'; [| discriminate].
  inversion E. subst kvs. simpl.
  inversion Hnd as [| ? ? Hnotin Hnd']. subst.
  destruct Hin as [Heq | Hin].
  - inversion Heq. subst. rewrite String.eqb_refl. eauto.
  - destruct (String.eqb_spec k k') as [-> | Hne].
    + exfalso. apply Hnotin. apply (in_map fst) in Hin. exact Hin.
    + apply IH; auto.
Qed.

Lemma picked_keys (fields : list (string * pyval)) (rows rs : list pyval) :
  NoDup (map fst fields) ->
  Forall2 (fun row r => pick row fields = Ok r) rows rs ->
  Forall (fun r => py_keys r = map fst fields) rs.
Proof.
  intros Hnd Hall. induction Hall as [| row r rows rs Hpick _ IH].
  - apply Forall_nil.
  - apply Forall_cons; [exact (pick_keys _ _ _ Hnd Hpick) | exact IH].
Qed.

Lemma mapM_lift_results {A B} (f : A -> outcome B) (l : list A) (tr : trace)
    (rs : list B) :
  result (mapM (fun a => lift (f a)) l) tr = Ok rs ->
  Forall2 (fun a b => f a = Ok b) l rs.
Proof.
  revert rs. induction l as [| a l IH]; simpl; intros rs E.
  - inversion E. constructor.
  - unfold result, bind, lift in E. simpl in E.
    destruct (f a) as [b |] eqn:Ea; [| discriminate].
    unfold result, lift in IH.
    destruct (mapM (fun a0 => fun tr0 => (f a0, tr0)) l tr) as [[bs | e] tr'] eqn:El;
      simpl in E; [| discriminate].
    inversion E. constructor; [exact Ea |]. apply IH. reflexivity.
Qed.

End Normalisation.

(** ** RESTConnector: requests *)

Section Rest.

Context `{Requests} `{Json}.
Import RESTConnector.

Lemma make_get_request_refused (self : t) (url : string) (tr : trace) (r : Response) :
  requests_get tr url (auth self) = Ok r ->
  status_code r <> 200 ->
  make_get_request self url tr =
    (Ok None, (tr ++ [EvGet url (auth self); EvLog ERROR (msg_request url r)])%list).
Proof.
  intros Hget Hstatus. unfold make_get_request, bind, http_get.
  rewrite Hget.
  apply Z.eqb_neq in Hstatus. rewrite Hstatus. simpl.
  unfold logger, emit, ret. rewrite <- app_assoc. reflexivity.
Qed.

Lemma make_get_request_accepted (self : t) (url : string) (tr : trace) (r : Response) :
  requests_get tr url (auth self) = Ok r ->
  status_code r = 200 ->
  make_get_request self url tr =
    (Ok (Some (text r)), (tr ++ [EvGet url (auth self)])%list).
Proof.
  intros Hget Hstatus. unfold make_get_request, bind, http_get.
  rewrite Hget.
  apply Z.eqb_eq in Hstatus. rewrite Hstatus. reflexivity.
Qed.

(** Whatever the transport does, [make_get_request] issues one request. *)
Lemma make_get_request_requests (self : t) (url : string) (tr : trace) :
  requests (after (make_get_request self url) tr) =
    (requests tr ++ [(url, auth self)])%list.
Proof.
  unfold after, make_get_request, bind, http_get.
  destruct (requests_get tr url (auth self)) as [r | e]; simpl.
  - destruct (status_code r =? 200); simpl; unfold logger, emit, ret, bind; simpl;
      rewrite ?requests_app; simpl; rewrite ?app_nil_r; reflexivity.
  - rewrite requests_app. reflexivity.
Qed.

(** An accessor that calls [make_get_request] once and then only computes
    issues exactly that request. *)
Lemma single_request {A} (self : t) (url : string) (k : option string -> M A)
    (tr : trace) :
  (forall data, silent (k data)) ->
  requests (after (bind (make_get_request self url) k) tr) =
    (requests tr ++ [(url, auth self)])%list.
Proof.
  intros Hk. rewrite after_bind.
  destruct (result (make_get_request self url) tr) as [data | e].
  - rewrite Hk. apply make_get_request_requests.
  - apply make_get_request_requests.
Qed.

(** C2: whenever the transport answers the request of an accessor with a
    status code other than 200, that accessor returns its empty result (an
    empty list for the listings and the binding lookups, an empty dict for
    [get_overview], [get_exchange] and [get_queue]) and does not raise,
    whatever the transport answers to other requests. *)
Theorem accessors_empty_on_refusal (self : t) (tr : trace) :
  (forall name_only,
      refused self "vhosts" tr ->
      result (get_list_vhosts self name_only) tr = Ok (PList [])) /\
  (refused self "overview" tr -> result (get_overview self) tr = Ok (PDict [])) /\
  (forall summary,
      refused self "connections" tr ->
      result (get_connections self None summary) tr = Ok (PList [])) /\
  (forall v summary,
      refused self ("vhosts/" ++ v ++ "/connections") tr ->
      result (get_connections self (Some v) summary) tr = Ok (PList [])) /\
  (refused self "consumers" tr ->
   result (get_consumers self None) tr = Ok (PList [])) /\
  (forall v,
      refused self ("consumers/" ++ v) tr ->
      result (get_consumers self (Some v)) tr = Ok (PList [])) /\
  (refused self "exchanges" tr ->
   result (get_exchanges self None) tr = Ok (PList [])) /\
  (forall v,
      refused self ("exchanges/" ++ v) tr ->
      result (get_exchanges self (Some v)) tr = Ok (PList [])) /\
  (forall v name get_binding,
      refused self ("exchanges/" ++ v ++ "/" ++ name) tr ->
      result (get_exchange self v name get_binding) tr = Ok (PDict [])) /\
  (forall v name,
      refused self ("exchanges/" ++ v ++ "/" ++ name ++ "/bindings/source") tr ->
      result (get_exchange_binding_source self v name) tr = Ok (PList [])) /\
  (forall v name,
      refused self ("exchanges/" ++ v ++ "/" ++ name ++ "/bindings/destination") tr ->
      result (get_exchange_binding_destination self v name) tr = Ok (PList [])) /\
  (refused self "queues" tr -> result (get_queues self None) tr = Ok (PList [])) /\
  (forall v,
      refused self ("queues/" ++ v) tr ->
      result (get_queues self (Some v)) tr = Ok (PList [])) /\
  (forall v name get_binding,
      refused self ("queues/" ++ v ++ "/" ++ name) tr ->
      result (get_queue self v name get_binding) tr = Ok (PDict [])) /\
  (forall v name,
      refused self ("queues/" ++ v ++ "/" ++ name ++ "/bindings") tr ->
      result (get_queue_binding self v name) tr = Ok (PList [])).
Proof.
  assert (Hreq : forall {A} api (k : option string -> M A),
             refused self api tr ->
             result (bind (make_get_request self (get_api_url self (Some api))) k) tr =
             result (k None)
               (after (make_get_request self (get_api_url self (Some api))) tr)).
  { intros A api k (r & Hget & Hstatus). unfold result, after.
    rewrite (bind_ok _ _ _ _ _ (make_get_request_refused _ _ _ _ Hget Hstatus)).
    rewrite (make_get_request_refused _ _ _ _ Hget Hstatus). reflexivity. }
  repeat split; intros;
    unfold get_list_vhosts, get_overview, get_connections, get_consumers,
      get_exchanges, get_exchange, get_exchange_binding_source,
      get_exchange_binding_destination, get_queues, get_queue, get_queue_binding;
    cbv zeta; rewrite Hreq by assumption; reflexivity.
Qed.

(** C6 (as the code has it): with a vhost [v], [get_connections] issues
    one GET request, to the URL of the resource path
    [vhosts/v/connections]. *)
Theorem get_connections_vhost_request
    (self : t) (v : string) (summary : bool) (tr : trace) :
  requests (after (get_connections self (Some v) summary) tr) =
    (requests tr ++
       [(get_api_url self (Some ("vhosts/" ++ v ++ "/connections")%string),
         auth self)])%list.
Proof.
  unfold get_connections. cbv zeta. apply single_request.
  intros [data |]; [| auto with silent].
  apply silent_bind; [auto with silent | intros d].
  destruct (negb summary); auto 8 with silent.
Qed.

(** The accessors on a 200 response run their continuation on its body. *)
Lemma result_accepted {A} (self : t) (url : string) (k : option string -> M A)
    (tr : trace) (r : Response) :
  requests_get tr url (auth self) = Ok r ->
  status_code r = 200 ->
  result (bind (make_get_request self url) k) tr =
    result (k (Some (text r))) (tr ++ [EvGet url (auth self)]).
Proof.
  intros Hget Hstatus. unfold result.
  rewrite (bind_ok _ _ _ _ _ (make_get_request_accepted _ _ _ _ Hget Hstatus)).
  reflexivity.
Qed.

(** C4 (as the code has it): [get_queues] with a vhost, on a 200 response
    whose body is [[{"name":"q1"}]], returns a list of one record with the
    15 queue fields and no others: name [q1], consumers 0, message_stats
    and arguments empty dicts, every other field [None]. *)
Theorem get_queues_bare_queue (self : t) (v : string) (tr : trace) :
  requests_get tr (get_api_url self (Some ("queues/" ++ v))) (auth self) =
    Ok (mkResponse 200 Body.one_queue) ->
  json_loads Body.one_queue = Ok (PList [PDict [("name", PStr "q1")]]) ->
  exists r,
    result (get_queues self (Some v)) tr = Ok (PList [r]) /\
    py_keys r = map fst queue_fields /\
    bare_queue_record 15 "q1" r.
Proof.
  intros Hget Hloads. unfold get_queues. cbv zeta.
  rewrite (result_accepted _ _ _ _ _ Hget eq_refl). simpl text.
  unfold result, bind, lift. rewrite Hloads. simpl.
  eexists. split; [reflexivity |]. split; [reflexivity |].
  unfold bare_queue_record. simpl.
  split; [eexists; reflexivity |].
  split; [reflexivity |].
  split.
  { repeat (constructor; [simpl; intuition discriminate |]). constructor. }
  repeat (split; [reflexivity |]).
  intros k Hin Hname Hconsumers Hstats Hargs.
  repeat (destruct Hin as [<- | Hin]; [first [reflexivity | congruence] |]).
  destruct Hin.
Qed.

(** X18: on a 200 response whose body is an object with the three sections,
    [get_overview] returns exactly these three, as they came, and nothing
    else of the object. *)
Lemma get_overview_sections (self : t) (tr : trace) (r : Response)
    (kvs : list (string * pyval)) (o m q : pyval) :
  requests_get tr (get_api_url self (Some "overview")) (auth self) = Ok r ->
  status_code r = 200 ->
  json_loads (text r) = Ok (PDict kvs) ->
  Dict.lookup "object_totals" kvs = Some o ->
  Dict.lookup "message_stats" kvs = Some m ->
  Dict.lookup "queue_totals" kvs = Some q ->
  result (get_overview self) tr =
    Ok (PDict [("object_totals", o); ("message_stats", m); ("queue_totals", q)]).
Proof.
  intros Hget Hstatus Hloads Ho Hm Hq. unfold get_overview. cbv zeta.
  rewrite (result_accepted _ _ _ _ _ Hget Hstatus).
  unfold result, bind, lift, py_getitem. rewrite Hloads, Ho, Hm, Hq. reflexivity.
Qed.

(** A section missing from the object makes [get_overview] raise. *)
Lemma get_overview_missing (self : t) (tr : trace) (r : Response)
    (kvs : list (string * pyval)) (o : pyval) :
  requests_get tr (get_api_url self (Some "overview")) (auth self) = Ok r ->
  status_code r = 200 ->
  json_loads (text r) = Ok (PDict kvs) ->
  Dict.lookup "object_totals" kvs = Some o ->
  Dict.lookup "message_stats" kvs = None ->
  result (get_overview self) tr = Raise (KeyError "message_stats").
Proof.
  intros Hget Hstatus Hloads Ho Hm. unfold get_overview. cbv zeta.
  rewrite (result_accepted _ _ _ _ _ Hget Hstatus).
  unfold result, bind, lift, py_getitem. rewrite Hloads, Ho, Hm. reflexivity.
Qed.

(** Without bindings, [get_exchange] returns the decoded body as it came. *)
Lemma get_exchange_verbatim (self : t) (vhost name : string) (tr : trace)
    (r : Response) (v : pyval) :
  requests_get tr (get_api_url self (Some ("exchanges/" ++ vhost ++ "/" ++ name)))
    (auth self) = Ok r ->
  status_code r = 200 ->
  json_loads (text r) = Ok v ->
  result (get_exchange self vhost name false) tr = Ok v.
Proof.
  intros Hget Hstatus Hloads. unfold get_exchange. cbv zeta.
  rewrite (result_accepted _ _ _ _ _ Hget Hstatus).
  unfold result, bind, lift. rewrite Hloads. reflexivity.
Qed.

Lemma nodup_exchange_fields : NoDup (map fst exchange_fields).
Proof. repeat (constructor; [simpl; intuition discriminate |]). constructor. Qed.

Lemma nodup_queue_fields : NoDup (map fst queue_fields).
Proof. repeat (constructor; [simpl; intuition discriminate |]). constructor. Qed.

Lemma nodup_connection_fields : NoDup (map fst connection_fields).
Proof. repeat (constructor; [simpl; intuition discriminate |]). constructor. Qed.

(** Opens [result (x <- m ;; k) tr = Ok b] into the two steps. *)
Ltac step E x Ex :=
  apply result_bind in E; destruct E as (x & Ex & E).

Ltac listing_keys nodup :=
  let E := fresh "E" in
  let data := fresh "data" in
  let Edata := fresh "Edata" in
  let body := fresh "body" in
  let Ebody := fresh "Ebody" in
  let rows := fresh "rows" in
  let Erows := fresh "Erows" in
  let rs' := fresh "rs" in
  let Ers := fresh "Ers" in
  intros E; cbv zeta in E;
  step E data Edata;
  destruct data as [body |];
    [| inversion E; apply Forall_nil];
  step E data Ebody;
  step E rows Erows;
  step E rs' Ers;
  inversion E; subst;
  apply mapM_lift_results in Ers;
  exact (picked_keys _ _ _ nodup Ers).

(** X20: whatever the response, the records of a list [get_exchanges]
    returns have exactly the eight exchange keys, in the order of the
    table. *)
Lemma get_exchanges_keys (self : t) (vhost : option string) (tr : trace)
    (rs : list pyval) :
  result (get_exchanges self vhost) tr = Ok (PList rs) ->
  Forall (fun r => py_keys r = map fst exchange_fields) rs.
Proof. unfold get_exchanges. listing_keys nodup_exchange_fields. Qed.

(** X19: whatever the response, the records of a list [get_queues]
    returns have exactly the 15 queue keys, in the order of the table. *)
Lemma get_queues_keys (self : t) (vhost : option string) (tr : trace)
    (rs : list pyval) :
  result (get_queues self vhost) tr = Ok (PList rs) ->
  Forall (fun r => py_keys r = map fst queue_fields) rs.
Proof. unfold get_queues. listing_keys nodup_queue_fields. Qed.

(** The record [get_queue] returns on a 200 response, bindings not asked
    for, has exactly the queue keys. *)
Lemma get_queue_keys (self : t) (vhost name : string) (tr : trace)
    (resp : Response) (r : pyval) :
  requests_get tr (get_api_url self (Some ("queues/" ++ vhost ++ "/" ++ name)))
    (auth self) = Ok resp ->
  status_code resp = 200 ->
  result (get_queue self vhost name false) tr = Ok r ->
  py_keys r = map fst queue_fields.
Proof.
  intros Hget Hstatus. unfold get_queue. cbv zeta.
  rewrite (result_accepted _ _ _ _ _ Hget Hstatus). intros E.
  step E data Edata. step E rec Erec. inversion E. subst.
  exact (pick_keys _ _ _ nodup_queue_fields Erec).
Qed.

End Rest.

(** ** RESTConnector: URLs and configuration *)

Section Url.

Import RESTConnector.

(** Without a port the URL is [protocol://host/api[/resource]]. *)
Lemma get_api_url_without_port (self : t) (api : option string) :
  port self = None ->
  get_api_url self api =
    str_opt (protocol self) ++ "://" ++ str_opt (host self) ++ "/api" ++ resource api.
Proof.
  intros Hport. unfold get_api_url. rewrite Hport. destruct api; reflexivity.
Qed.

(** With a port the host is replaced by [:port], not followed by it. *)
Lemma get_api_url_with_port (self : t) (p : Z) (api : option string) :
  port self = Some p ->
  get_api_url self api =
    str_opt (protocol self) ++ "://" ++ ":" ++ str_int p ++ "/api" ++ resource api.
Proof.
  intros Hport. unfold get_api_url. rewrite Hport. destruct api; reflexivity.
Qed.

(** C3 (where the code departs from it): for host [h], port 15672 and
    https, [get_api_url] returns [https://:15672/api] and
    [https://:15672/api/queues]; the host is missing from both, which
    should read [https://h:15672/api] and [https://h:15672/api/queues]. *)
Theorem get_api_url_port_drops_host :
  get_api_url Example.connector_with_port None = "https://:15672/api" /\
  get_api_url Example.connector_with_port (Some "queues") = "https://:15672/api/queues" /\
  get_api_url Example.connector_with_port None <> "https://h:15672/api" /\
  get_api_url Example.connector_with_port (Some "queues") <> "https://h:15672/api/queues".
Proof. repeat split; try reflexivity; vm_compute; discriminate. Qed.

End Url.

Section Configuration.

Context `{Pika} `{Json}.

(** C5 (where the code departs from it): whatever the arguments, and so
    whatever value the option [max_attempt_retry] carries, the instance
    the constructor returns has the budget 3 of the class: the option's
    value is never read, so it cannot raise the budget. *)
Theorem init_max_attempt_retry (a : AMQPConnector.args) (self : AMQPConnector.t) :
  AMQPConnector.__init__ a = Ok self ->
  AMQPConnector.max_attempt_retry self = 3.
Proof.
  unfold AMQPConnector.__init__.
  destruct (match AMQPConnector.amqp_uri a with Some _ => _ | None => _ end)
    as [params | e]; [| discriminate].
  destruct (AMQPConnector.has_max_attempt_retry (AMQPConnector.options a));
    intros E; inversion E; reflexivity.
Qed.

Import RESTConnector.

(** The output of [__str__] is the same whatever the password. *)
Lemma str_ignores_password (self : t) (pw : option string) :
  __str__ (set_password self pw) = __str__ self.
Proof. reflexivity. Qed.

(** [get_parameters_from_amqp_uri] stores what [pika] parsed from the URI
    in host, virtual host, username and password, and leaves port and
    protocol as they were. *)
Lemma get_parameters_copies (self : t) (amqp_uri : string) (params : Parameters) :
  URLParameters amqp_uri = Ok params ->
  exists self',
    get_parameters_from_amqp_uri self amqp_uri = Ok self' /\
    host self' = Some (p_host params) /\
    username self' = cred_username (p_credentials params) /\
    password self' = cred_password (p_credentials params) /\
    virtual_host self' = Some (p_virtual_host params) /\
    port self' = port self /\
    protocol self' = protocol self.
Proof.
  intros Hparse. unfold get_parameters_from_amqp_uri. rewrite Hparse.
  eexists. repeat split.
Qed.

End Configuration.

(** ** The reference collaborators *)

Section Reference.

Lemma string_app_assoc (a b c : string) : (a ++ b) ++ c = a ++ b ++ c.
Proof. induction a as [| x a IH]; simpl; [reflexivity | rewrite IH; reflexivity]. Qed.

Lemma string_app_nil (a : string) : a ++ "" = a.
Proof. induction a as [| x a IH]; simpl; [reflexivity | rewrite IH; reflexivity]. Qed.

Lemma joined_contains (sep part : string) (before after : list string) :
  contains part (Ref.joined sep (before ++ part :: after)).
Proof.
  induction before as [| x before IH].
  - exists "". destruct after as [| y after].
    + exists "". simpl. rewrite string_app_nil. reflexivity.
    + exists (sep ++ Ref.joined sep (y :: after)). reflexivity.
  - destruct IH as (pre & post & E).
    exists (x ++ sep ++ pre), post.
    change (Ref.joined sep ((x :: before) ++ part :: after))
      with (match (before ++ part :: after)%list with
            | [] => x
            | _ :: _ => x ++ sep ++ Ref.joined sep (before ++ part :: after)
            end).
    destruct (before ++ part :: after)%list as [| y l] eqn:El.
    + destruct before; discriminate.
    + rewrite E, !string_app_assoc. reflexivity.
Qed.

Lemma dumps_dict (kvs : list (string * pyval)) :
  Ref.dumps (PDict kvs) =
    "{" ++ Ref.joined ", " (map (fun '(k, v) => Ref.quoted k ++ ": " ++ Ref.dumps v) kvs)
        ++ "}".
Proof. reflexivity. Qed.

(** The reference encoder writes every entry of a dict as [key: value]. *)
Lemma dumps_entry (k : string) (v : pyval) (before after : list (string * pyval)) :
  contains (Ref.quoted k ++ ": " ++ Ref.dumps v)
    (Ref.dumps (PDict (before ++ (k, v) :: after))).
Proof.
  rewrite dumps_dict, map_app. cbn [map].
  generalize (Ref.quoted k ++ ": " ++ Ref.dumps v). intros entry.
  destruct (joined_contains ", " entry
              (map (fun '(k0, v0) => Ref.quoted k0 ++ ": " ++ Ref.dumps v0) before)
              (map (fun '(k0, v0) => Ref.quoted k0 ++ ": " ++ Ref.dumps v0) after))
    as (pre & post & E).
  exists ("{" ++ pre), (post ++ "}").
  rewrite E, !string_app_assoc. reflexivity.
Qed.

(** With the reference encoder, the string [__str__] gives for any instance
    contains the entry of the password with the mask as its value. *)
Lemma str_masks_password (self : RESTConnector.t) :
  contains (Ref.quoted "password" ++ ": " ++ Ref.quoted "********")
    (@RESTConnector.__str__ Ref.json self).
Proof.
  exact (dumps_entry "password" (PStr RESTConnector.masked)
           [("host", py_opt_str (RESTConnector.host self));
            ("port", py_opt_int (RESTConnector.port self));
            ("virtual_host", py_opt_str (RESTConnector.virtual_host self));
            ("username", py_opt_str (RESTConnector.username self))]
           [("protocol", py_opt_str (RESTConnector.protocol self))]).
Qed.

Lemma substring_all (s : string) : substring 0 (String.length s) s = s.
Proof. induction s as [| c s IH]; simpl; [reflexivity | rewrite IH; reflexivity]. Qed.

(** *** The model of pika.URLParameters on plain URIs *)

Lemma all_app (f : ascii -> bool) (a b : string) :
  Ref.all f (a ++ b) = (Ref.all f a && Ref.all f b)%bool.
Proof.
  induction a as [| x a IH]; simpl; [reflexivity |].
  rewrite IH, andb_assoc. reflexivity.
Qed.

Lemma all_impl (f g : ascii -> bool) (s : string) :
  (forall c, f c = true -> g c = true) ->
  Ref.all f s = true -> Ref.all g s = true.
Proof.
  intros Hfg. induction s as [| x s IH]; simpl; [reflexivity |].
  intros Hall. apply andb_true_iff in Hall. destruct Hall as [Hx Hs].
  rewrite (Hfg x Hx), (IH Hs). reflexivity.
Qed.

(** Up to a character that stops it, [break] passes a text without such
    characters. *)
Lemma break_stop (f : ascii -> bool) (a : string) (c : ascii) (b : string) :
  Ref.all (fun x => negb (f x)) a = true ->
  f c = true ->
  Ref.break f (a ++ String c b) = (a, Some (c, b)).
Proof.
  intros Ha Hc. induction a as [| x a IH]; simpl.
  - rewrite Hc. reflexivity.
  - simpl in Ha. apply andb_true_iff in Ha. destruct Ha as [Hx Ha].
    apply negb_true_iff in Hx. rewrite Hx, (IH Ha). reflexivity.
Qed.

Lemma break_none (f : ascii -> bool) (a : string) :
  Ref.all (fun x => negb (f x)) a = true ->
  Ref.break f a = (a, None).
Proof.
  intros Ha. induction a as [| x a IH]; simpl; [reflexivity |].
  simpl in Ha. apply andb_true_iff in Ha. destruct Ha as [Hx Ha].
  apply negb_true_iff in Hx. rewrite Hx, (IH Ha). reflexivity.
Qed.

Lemma rbreak_none (c : ascii) (b : string) :
  Ref.all (fun x => negb (Ascii.eqb x c)) b = true ->
  Ref.rbreak c b = None.
Proof.
  intros Hb. induction b as [| x b IH]; simpl; [reflexivity |].
  simpl in Hb. apply andb_true_iff in Hb. destruct Hb as [Hx Hb].
  apply negb_true_iff in Hx. rewrite (IH Hb), Hx. reflexivity.
Qed.

(** [rbreak] finds the last [c]: the one after which there is none. *)
Lemma rbreak_last (c : ascii) (a b : string) :
  Ref.all (fun x => negb (Ascii.eqb x c)) b = true ->
  Ref.rbreak c (a ++ String c b) = Some (a, b).
Proof.
  intros Hb. induction a as [| x a IH]; simpl.
  - rewrite (rbreak_none c b Hb), Ascii.eqb_refl. reflexivity.
  - rewrite IH. reflexivity.
Qed.

Lemma has_none (c : ascii) (s : string) :
  Ref.all (fun x => negb (Ascii.eqb x c)) s = true -> Ref.has c s = false.
Proof. intros Hs. unfold Ref.has. rewrite Hs. reflexivity. Qed.

Lemma unquote_plain (s : string) :
  Ref.all (fun x => negb (Ascii.eqb x "%")) s = true -> Ref.unquote s = s.
Proof.
  intros Hs. induction s as [| x s IH]; [reflexivity |].
  simpl in Hs. apply andb_true_iff in Hs. destruct Hs as [Hx Hs].
  apply negb_true_iff in Hx.
  change (Ref.unquote (String x s))
    with (if Ascii.eqb x "%"
          then match s with
               | String a (String b s'') =>
                   match Ref.hex_value a, Ref.hex_value b with
                   | Some n, Some m =>
                       String (ascii_of_nat (16 * n + m)) (Ref.unquote s'')
                   | _, _ => String x (Ref.unquote s)
                   end
               | _ => String x (Ref.unquote s)
               end
          else String x (Ref.unquote s)).
  rewrite Hx, (IH Hs). reflexivity.
Qed.

(** Decides a fact about every character by trying the 256 of them. *)
Ltac every_char :=
  let c := fresh "c" in
  intros c; destruct c as [[] [] [] [] [] [] [] []];
  vm_compute; intros; first [reflexivity | discriminate].

Lemma lower_char_host : forall c, host_char c = true -> Ref.lower_char c = c.
Proof. every_char. Qed.

Lemma lower_host (h : string) : Ref.all host_char h = true -> Ref.lower h = h.
Proof.
  intros Hh. induction h as [| x h IH]; simpl; [reflexivity |].
  simpl in Hh. apply andb_true_iff in Hh. destruct Hh as [Hx Hh].
  rewrite (lower_char_host x Hx), (IH Hh). reflexivity.
Qed.

(** A text of the characters [g] allows holds none that [f] stops at,
    when this is so of every character. *)
Ltac avoid g :=
  apply (all_impl g); [every_char | assumption].

Lemma fix_scheme_amqp (rest : string) :
  Ref.fix_scheme ("amqp" ++ rest) = "http" ++ rest.
Proof.
  assert (Hnone : substring 0 0 rest = "") by (destruct rest; reflexivity).
  unfold Ref.fix_scheme. simpl. rewrite Hnone, Nat.sub_0_r, substring_all. reflexivity.
Qed.

Lemma split_scheme_http (rest : string) :
  Ref.split_scheme ("http:" ++ rest) = ("http", rest).
Proof. reflexivity. Qed.

Section Plain.

Variables u p h vh : string.
Hypothesis Hu : Ref.all unreserved u = true.
Hypothesis Hp : Ref.all unreserved p = true.
Hypothesis Hh : Ref.all host_char h = true.
Hypothesis Hvh : Ref.all unreserved vh = true.

(** The network location [u:p@h]. *)
Let netloc : string := u ++ String ":" (p ++ String "@" h).

Lemma uri_netloc :
  u ++ ":" ++ p ++ "@" ++ h ++ "/" ++ vh = netloc ++ String "/" vh.
Proof.
  unfold netloc. simpl. rewrite !string_app_assoc. simpl.
  rewrite !string_app_assoc. reflexivity.
Qed.

Lemma netloc_avoids (f : ascii -> bool) :
  f ":"%char = false -> f "@"%char = false ->
  Ref.all (fun x => negb (f x)) u = true ->
  Ref.all (fun x => negb (f x)) p = true ->
  Ref.all (fun x => negb (f x)) h = true ->
  Ref.all (fun x => negb (f x)) netloc = true.
Proof.
  intros Hcolon Hat Hfu Hfp Hfh. unfold netloc.
  rewrite all_app. simpl. rewrite all_app. simpl.
  rewrite Hfu, Hfp, Hfh, Hcolon, Hat. reflexivity.
Qed.

Lemma urlparse_plain :
  Ref.urlparse ("http://" ++ u ++ ":" ++ p ++ "@" ++ h ++ "/" ++ vh) =
    Ok (Ref.mk_parts "http" netloc (String "/" vh) "").
Proof.
  unfold Ref.urlparse.
  change ("http://" ++ u ++ ":" ++ p ++ "@" ++ h ++ "/" ++ vh)
    with ("http:" ++ String "/" (String "/" (u ++ ":" ++ p ++ "@" ++ h ++ "/" ++ vh))).
  rewrite split_scheme_http. unfold Ref.split_netloc.
  rewrite uri_netloc.
  rewrite (break_stop Ref.ends_netloc netloc "/" vh);
    [| apply netloc_avoids; [reflexivity | reflexivity | avoid unreserved
                            | avoid unreserved | avoid host_char]
     | reflexivity].
  rewrite (has_none "[" netloc), (has_none "]" netloc);
    [| apply (netloc_avoids (fun x => Ascii.eqb x "]"));
       [reflexivity | reflexivity | avoid unreserved | avoid unreserved | avoid host_char]
     | apply (netloc_avoids (fun x => Ascii.eqb x "["));
       [reflexivity | reflexivity | avoid unreserved | avoid unreserved | avoid host_char]].
  cbn [xorb].
  assert (Hhash : Ref.break (fun c => Ascii.eqb c "#") (String "/" vh) = (String "/" vh, None)).
  { apply break_none. simpl. avoid unreserved. }
  assert (Hquery : Ref.break (fun c => Ascii.eqb c "?") (String "/" vh) = (String "/" vh, None)).
  { apply break_none. simpl. avoid unreserved. }
  rewrite Hhash. cbn [fst]. rewrite Hquery.
  unfold Ref.strip_params.
  assert (Hlast : Ref.rbreak "/" (String "/" vh) = Some ("", vh))
    by (apply (rbreak_last "/" "" vh); avoid unreserved).
  rewrite Hlast.
  rewrite (break_none (fun c => Ascii.eqb c ";") vh) by avoid unreserved.
  reflexivity.
Qed.

Lemma netloc_userinfo : netloc = (u ++ String ":" p) ++ String "@" h.
Proof. unfold netloc. rewrite string_app_assoc. reflexivity. Qed.

Lemma rbreak_netloc : Ref.rbreak "@" netloc = Some (u ++ String ":" p, h).
Proof. rewrite netloc_userinfo. apply rbreak_last. avoid host_char. Qed.

Lemma hostinfo_plain : Ref.hostinfo netloc = (h, "").
Proof.
  unfold Ref.hostinfo. rewrite rbreak_netloc.
  rewrite (break_none (fun c => Ascii.eqb c "[") h) by avoid host_char.
  rewrite (break_none (fun c => Ascii.eqb c ":") h) by avoid host_char.
  reflexivity.
Qed.

Lemma hostname_plain : h <> "" -> Ref.hostname netloc = Some h.
Proof.
  intros Hne. unfold Ref.hostname. rewrite hostinfo_plain. cbn [fst].
  destruct h as [| c h'] eqn:Eh; [contradiction |].
  rewrite <- Eh in *.
  rewrite (break_none (fun c => Ascii.eqb c "%") h) by avoid host_char.
  rewrite (lower_host h Hh), string_app_nil. reflexivity.
Qed.

Lemma port_plain : Ref.port netloc = Ok None.
Proof. unfold Ref.port. rewrite hostinfo_plain. reflexivity. Qed.

Lemma credentials_plain :
  Ref.credentials netloc = Ok (mkCredentials (Some u) (Some p)).
Proof.
  unfold Ref.credentials. rewrite rbreak_netloc.
  rewrite (break_stop (fun c => Ascii.eqb c ":") u ":" p);
    [| avoid unreserved | reflexivity].
  rewrite (unquote_plain u), (unquote_plain p); [reflexivity | |]; avoid unreserved.
Qed.

Lemma virtual_host_plain : vh <> "" -> Ref.virtual_host (String "/" vh) = Ok vh.
Proof.
  intros Hne. unfold Ref.virtual_host.
  destruct vh as [| c vh'] eqn:Evh; [contradiction |].
  rewrite <- Evh in *.
  replace (Nat.ltb 1 (String.length (String "/" vh))) with true
    by (rewrite Evh; reflexivity).
  assert (Hfirst : Ref.break (fun c => Ascii.eqb c "/") (String "/" vh) =
                   ("", Some ("/"%char, vh))) by reflexivity.
  rewrite Hfirst.
  rewrite (break_none (fun c => Ascii.eqb c "/") vh) by avoid unreserved.
  cbn [fst]. rewrite (unquote_plain vh) by avoid unreserved. reflexivity.
Qed.

(** The model parses a plain URI into the parts it was written from. *)
Lemma url_parameters_plain :
  h <> "" -> vh <> "" ->
  Ref.url_parameters ("amqp://" ++ u ++ ":" ++ p ++ "@" ++ h ++ "/" ++ vh) =
    Ok (mkParameters h 5672 vh (mkCredentials (Some u) (Some p))).
Proof.
  intros Hhost Hvhost. unfold Ref.url_parameters.
  change ("amqp://" ++ u ++ ":" ++ p ++ "@" ++ h ++ "/" ++ vh)
    with ("amqp" ++ "://" ++ u ++ ":" ++ p ++ "@" ++ h ++ "/" ++ vh).
  rewrite fix_scheme_amqp.
  change ("http" ++ "://" ++ u ++ ":" ++ p ++ "@" ++ h ++ "/" ++ vh)
    with ("http://" ++ u ++ ":" ++ p ++ "@" ++ h ++ "/" ++ vh).
  rewrite urlparse_plain.
  cbn [Ref.u_scheme Ref.u_netloc Ref.u_path Ref.u_query].
  rewrite (hostname_plain Hhost), port_plain, credentials_plain,
    (virtual_host_plain Hvhost).
  reflexivity.
Qed.

End Plain.

End Reference.


(** ** The methods on concrete inputs *)

(** A maximum of 3 against a broker that is down: without override four
    attempts; with the override 10, which the maximum caps, four attempts;
    with the override 0 one attempt; [None] each time. *)
Lemma connect_all_fail_attempts_witness :
  let self := AMQPConnector.mk None 3 Example.parameters in
  (forall h, @BlockingConnection Example.down h (AMQPConnector.parameters self) = None) /\
  AMQPConnector.connection self = None /\
  3 = AMQPConnector.max_attempt_retry self /\
  3 = Z.min 10 (AMQPConnector.max_attempt_retry self) /\
  0 = Z.min 0 (AMQPConnector.max_attempt_retry self) /\
  (result (@AMQPConnector.connect Example.down self None) [] = Ok (None, self) /\
   dials (after (@AMQPConnector.connect Example.down self None) []) = 4%nat) /\
  (result (@AMQPConnector.connect Example.down self (Some 10)) [] = Ok (None, self) /\
   dials (after (@AMQPConnector.connect Example.down self (Some 10)) []) = 4%nat) /\
  (result (@AMQPConnector.connect Example.down self (Some 0)) [] = Ok (None, self) /\
   dials (after (@AMQPConnector.connect Example.down self (Some 0)) []) = 1%nat).
Proof.
  intros self.
  assert (Hdown : forall h,
             @BlockingConnection Example.down h (AMQPConnector.parameters self) = None)
    by reflexivity.
  assert (Hnone : AMQPConnector.connection self = None) by reflexivity.
  assert (Hmax : 3 = AMQPConnector.max_attempt_retry self) by reflexivity.
  assert (Hcap : 3 = Z.min 10 (AMQPConnector.max_attempt_retry self)) by reflexivity.
  assert (Hzero : 0 = Z.min 0 (AMQPConnector.max_attempt_retry self)) by reflexivity.
  repeat (split; [assumption |]).
  split; [| split].
  - exact (@connect_all_fail_attempts Example.down self None 3 [] Hdown Hnone Hmax
             ltac:(lia)).
  - exact (@connect_all_fail_attempts Example.down self (Some 10) 3 [] Hdown Hnone Hcap
             ltac:(lia)).
  - exact (@connect_all_fail_attempts Example.down self (Some 0) 0 [] Hdown Hnone Hzero
             ltac:(lia)).
Defined.

(** A first [connect] is accepted and stores connection 0; the broker then
    refuses every attempt, and the second [connect] still returns
    connection 0. *)
Lemma connect_all_fail_keeps_connection_witness :
  let self0 := AMQPConnector.mk None 3 Example.parameters in
  let self1 := AMQPConnector.mk (Some 0%nat) 3 Example.parameters in
  let tr1 := after (@AMQPConnector.connect Example.up_once self0 None) [] in
  result (@AMQPConnector.connect Example.up_once self0 None) [] = Ok (Some 0%nat, self1) /\
  AMQPConnector.connection self1 = Some 0%nat /\
  (forall evs,
      @BlockingConnection Example.up_once (tr1 ++ evs) (AMQPConnector.parameters self1)
      = None) /\
  result (@AMQPConnector.connect Example.up_once self1 None) tr1 = Ok (Some 0%nat, self1).
Proof.
  intros self0 self1 tr1.
  assert (Hfirst : result (@AMQPConnector.connect Example.up_once self0 None) [] =
                   Ok (Some 0%nat, self1)) by (vm_compute; reflexivity).
  assert (Hconn : AMQPConnector.connection self1 = Some 0%nat) by reflexivity.
  assert (Hfail : forall evs,
             @BlockingConnection Example.up_once (tr1 ++ evs)
               (AMQPConnector.parameters self1) = None).
  { intros evs. simpl. rewrite dials_app.
    replace (dials tr1) with 1%nat by (vm_compute; reflexivity). reflexivity. }
  repeat (split; [assumption |]).
  exact (@connect_all_fail_keeps_connection Example.up_once self1 None tr1 0%nat
           Hconn Hfail).
Defined.

(** A server that answers 404 for the queue [q1] of [v] only, and 200 to
    every other request: [get_queue] returns the empty dict, with or without
    bindings. *)
Lemma accessors_empty_on_refusal_witness :
  let H := Scenario.refusing_only "https://h/api/queues/v/q1" in
  let self := Example.connector in
  @refused H self "queues/v/q1" [] /\
  ~ @refused H self "queues/v" [] /\
  result (@RESTConnector.get_queue H Ref.json self "v" "q1" true) [] = Ok (PDict []) /\
  result (@RESTConnector.get_queue H Ref.json self "v" "q1" false) [] = Ok (PDict []).
Proof.
  intros H self.
  assert (Hrefused : @refused H self "queues/v/q1" []).
  { exists (mkResponse 404 "Not Found"). split; [reflexivity | simpl; discriminate]. }
  assert (Hserved : ~ @refused H self "queues/v" []).
  { intros (r & Hget & Hstatus). vm_compute in Hget. inversion Hget. subst r.
    apply Hstatus. reflexivity. }
  split; [exact Hrefused |]. split; [exact Hserved |].
  pose proof (@accessors_empty_on_refusal H Ref.json self []) as Hall.
  destruct Hall as (_ & _ & _ & _ & _ & _ & _ & _ & _ & _ & _ & _ & _ & Hqueue & _).
  split; apply Hqueue; exact Hrefused.
Defined.

(** [get_queues(vhost='v')] on the body [[{"name":"q1"}]], decoded by the
    reference decoder. *)
Lemma get_queues_bare_queue_witness :
  let H := Ref.server 200 Body.one_queue in
  let self := Example.connector in
  @requests_get H [] (RESTConnector.get_api_url self (Some "queues/v"))
    (RESTConnector.auth self) = Ok (mkResponse 200 Body.one_queue) /\
  @json_loads Ref.json Body.one_queue = Ok (PList [PDict [("name", PStr "q1")]]) /\
  exists r,
    result (@RESTConnector.get_queues H Ref.json self (Some "v")) [] = Ok (PList [r]) /\
    py_keys r = map fst RESTConnector.queue_fields /\
    bare_queue_record 15 "q1" r.
Proof.
  intros H self.
  assert (Hget : @requests_get H [] (RESTConnector.get_api_url self (Some "queues/v"))
                   (RESTConnector.auth self) = Ok (mkResponse 200 Body.one_queue))
    by reflexivity.
  assert (Hloads : @json_loads Ref.json Body.one_queue =
                   Ok (PList [PDict [("name", PStr "q1")]]))
    by (vm_compute; reflexivity).
  split; [exact Hget |]. split; [exact Hloads |].
  exact (@get_queues_bare_queue H Ref.json self "v" [] Hget Hloads).
Defined.

(** C4, as stated, fails: the record [get_queues] returns for the body
    [[{"name":"q1"}]] is not a record of 14 fields (it has 15). *)
Lemma get_queues_record_not_14_fields :
  ~ exists r,
      result (@RESTConnector.get_queues (Ref.server 200 Body.one_queue) Ref.json
                Example.connector (Some "v")) [] = Ok (PList [r]) /\
      bare_queue_record 14 "q1" r.
Proof.
  intros (r & Hr & Hrec). vm_compute in Hr. inversion Hr. subst r.
  destruct Hrec as (_ & Hlen & _). vm_compute in Hlen. discriminate.
Qed.

(** [AMQPConnector(amqp_uri='amqp://u:p@h/vh', max_attempt_retry=10)]: the
    budget is 3, not 10. *)
Lemma init_max_attempt_retry_witness :
  let a := AMQPConnector.mkargs (Some Example.amqp_uri) None 5672 None None None
             [("max_attempt_retry", PInt 10)] in
  let self := AMQPConnector.mk None 3 Example.parameters in
  @AMQPConnector.__init__ Example.down a = Ok self /\
  AMQPConnector.max_attempt_retry self = 3 /\
  AMQPConnector.max_attempt_retry self <> Z.max 10 3.
Proof.
  intros a self.
  assert (Hinit : @AMQPConnector.__init__ Example.down a = Ok self)
    by (vm_compute; reflexivity).
  split; [exact Hinit |].
  split; [exact (@init_max_attempt_retry Example.down a self Hinit) |].
  vm_compute. discriminate.
Defined.

(** C6, as stated, fails: with vhost [v] the request does not go to the URL
    of the resource path [connections/v]. *)
Lemma get_connections_not_connections_path :
  requests (after (@RESTConnector.get_connections (Ref.server 200 "[]") Ref.json
                     Example.connector (Some "v") true) []) <>
  [(RESTConnector.get_api_url Example.connector (Some "connections/v"),
    RESTConnector.auth Example.connector)].
Proof. vm_compute. discriminate. Qed.

(** C7 (where the code departs from it): on a 200 response whose body is
    the object [{"object_totals": {}, "queue_totals": {}}], [get_overview]
    raises [KeyError('message_stats')]; the missing section is not
    defaulted. *)
Theorem get_overview_missing_section_raises :
  @json_loads Ref.json Body.overview_without_stats =
    Ok (PDict [("object_totals", PDict []); ("queue_totals", PDict [])]) /\
  result (@RESTConnector.get_overview (Ref.server 200 Body.overview_without_stats)
            Ref.json Example.connector) [] = Raise (KeyError "message_stats").
Proof. split; vm_compute; reflexivity. Qed.

(** C8 (where the code departs from it): on a 200 response whose body is
    [{"name": "e", "policy": null}], [get_exchange] returns that object as
    it came: the key [policy], which is not an exchange key, is kept, and
    the other seven exchange keys are missing; [get_exchanges] on the list
    of that one object returns the record of the eight exchange keys. *)
Theorem get_exchange_not_normalised :
  let upstream := PDict [("name", PStr "e"); ("policy", PNone)] in
  @json_loads Ref.json Body.exchange_with_policy = Ok upstream /\
  result (@RESTConnector.get_exchange (Ref.server 200 Body.exchange_with_policy)
            Ref.json Example.connector "v" "e" false) [] = Ok upstream /\
  py_keys upstream <> map fst RESTConnector.exchange_fields /\
  exists r,
    result (@RESTConnector.get_exchanges
              (Ref.server 200 ("[" ++ Body.exchange_with_policy ++ "]"))
              Ref.json Example.connector (Some "v")) [] = Ok (PList [r]) /\
    py_keys r = map fst RESTConnector.exchange_fields.
Proof.
  intros upstream. repeat split; try (vm_compute; reflexivity).
  - vm_compute. discriminate.
  - eexists. split; vm_compute; reflexivity.
Qed.




(** ** AMQPConnector.connect: every run *)

Lemma sleeps_app (tr1 tr2 : trace) : sleeps (tr1 ++ tr2) = (sleeps tr1 ++ sleeps tr2)%list.
Proof. unfold sleeps. apply flat_map_app. Qed.

Lemma logs_app (tr1 tr2 : trace) : logs (tr1 ++ tr2) = (logs tr1 ++ logs tr2)%list.
Proof. unfold logs. apply flat_map_app. Qed.

Lemma dials_failing_run (params : Parameters) (n : nat) :
  forall a, dials (failing_run params a n) = S n.
Proof.
  induction n as [| n IH]; intros a; [reflexivity |].
  change (dials (failing_run params a (S n)))
    with (S (dials (failing_run params (a + 1) n))).
  rewrite IH. reflexivity.
Qed.

Lemma sleeps_failing_run (params : Parameters) (n : nat) :
  forall a,
    sleeps (failing_run params a n) =
      map (fun i => Z.min ((a + Z.of_nat i) * 2) 30) (seq 1 n).
Proof.
  induction n as [| n IH]; intros a; [reflexivity |].
  change (sleeps (failing_run params a (S n)))
    with (Z.min ((a + 1) * 2) 30 :: sleeps (failing_run params (a + 1) n)).
  rewrite IH. cbn [seq map]. f_equal.
  rewrite <- (seq_shift n 1), map_map. apply map_ext. intros i. f_equal. lia.
Qed.

Lemma logs_failing_run (params : Parameters) (n : nat) :
  forall a,
    logs (failing_run params a n) =
      (map (fun i => (WARNING, AMQPConnector.msg_retry (a + Z.of_nat i) params))
           (seq 1 (S n))
       ++ [(ERROR, AMQPConnector.msg_cannot (a + Z.of_nat (S n)) params)])%list.
Proof.
  induction n as [| n IH]; intros a; [reflexivity |].
  change (logs (failing_run params a (S n)))
    with ((WARNING, AMQPConnector.msg_retry (a + 1) params)
            :: logs (failing_run params (a + 1) n)).
  rewrite IH.
  change (seq 1 (S (S n))) with (1%nat :: seq 2 (S n)).
  rewrite <- (seq_shift (S n) 1). cbn [map app]. rewrite map_map.
  f_equal. f_equal.
  - apply map_ext. intros i. do 2 f_equal. lia.
  - do 3 f_equal. lia.
Qed.

Section ConnectRuns.

Context `{Pika}.
Import AMQPConnector.

(** The loop from a point on which every attempt fails, event by event. *)
Lemma loop_failing_run (n : nat) :
  forall (self : t) (attempts_retry attempts : Z) (tr : trace),
    (forall evs, BlockingConnection (tr ++ evs) (parameters self) = None) ->
    Z.to_nat (attempts_retry - attempts) = n ->
    loop self attempts_retry attempts tr =
      (Ok self, (tr ++ failing_run (parameters self) attempts n)%list).
Proof.
  induction n as [| n IH]; intros self ar a tr Hfail Hn;
    pose proof (Hfail []) as Hnow; rewrite app_nil_r in Hnow;
    rewrite loop_equation_1; cbv zeta;
    unfold bind, dial, logger, sleep, emit, ret; rewrite Hnow;
    destruct (Z_gt_dec (a + 1) ar) as [Hgt | Hle]; try lia.
  - rewrite <- !app_assoc. reflexivity.
  - rewrite IH.
    + rewrite <- !app_assoc. reflexivity.
    + intros evs. rewrite <- !app_assoc. apply Hfail.
    + lia.
Qed.

(** The loop when the next [j] attempts fail and the one after them is
    accepted, with budget left for it. *)
Lemma loop_succeeds (j : nat) :
  forall (self : t) (attempts_retry attempts : Z) (tr : trace) (conn : handle),
    (forall evs, (dials evs < j)%nat ->
                 BlockingConnection (tr ++ evs) (parameters self) = None) ->
    (forall evs, dials evs = j ->
                 BlockingConnection (tr ++ evs) (parameters self) = Some conn) ->
    j = O \/ Z.of_nat j <= attempts_retry - attempts ->
    exists evs,
      loop self attempts_retry attempts tr =
        (Ok (mk (Some conn) (max_attempt_retry self) (parameters self)),
         (tr ++ evs)%list) /\
      dials evs = S j /\
      sleeps evs = map (fun i => Z.min ((attempts + Z.of_nat i) * 2) 30) (seq 1 j).
Proof.
  induction j as [| j IH]; intros self ar a tr conn Hfail Hok Hbudget;
    rewrite loop_equation_1; cbv zeta; unfold bind, dial, logger, sleep, emit, ret.
  - pose proof (Hok [] eq_refl) as Hnow. rewrite app_nil_r in Hnow. rewrite Hnow.
    eexists. split; [rewrite <- !app_assoc; reflexivity |]. split; reflexivity.
  - pose proof (Hfail [] (Nat.lt_0_succ j)) as Hnow. rewrite app_nil_r in Hnow.
    rewrite Hnow.
    destruct (Z_gt_dec (a + 1) ar) as [Hgt | Hle]; [lia |].
    destruct (IH self ar (a + 1)
                (((tr ++ [EvDial (parameters self)])
                    ++ [EvLog WARNING (msg_retry (a + 1) (parameters self))])
                    ++ [EvSleep (Z.min ((a + 1) * 2) 30)])%list conn)
      as (evs & Hloop & Hd & Hs).
    + intros evs Hlt. rewrite <- !app_assoc. apply Hfail.
      rewrite !dials_app. simpl. lia.
    + intros evs Heq. rewrite <- !app_assoc. apply Hok.
      rewrite !dials_app. simpl. lia.
    + right. lia.
    + rewrite Hloop. eexists. split; [rewrite <- !app_assoc; reflexivity |]. split.
      * rewrite !dials_app, Hd. reflexivity.
      * rewrite !sleeps_app, Hs. cbn [seq map]. simpl. f_equal.
        rewrite <- (seq_shift j 1), map_map. apply map_ext. intros i. f_equal. lia.
Qed.

(** The loop against any broker: it returns, having dialled at least once
    and at most once more than the budget still allows; it changes nothing
    of the instance but the connection, and only to a new connection. *)
Lemma loop_bounded (n : nat) :
  forall (self : t) (attempts_retry attempts : Z) (tr : trace),
    Z.to_nat (attempts_retry - attempts) = n ->
    exists self' evs,
      loop self attempts_retry attempts tr = (Ok self', (tr ++ evs)%list) /\
      (1 <= dials evs <= S n)%nat /\
      parameters self' = parameters self /\
      max_attempt_retry self' = max_attempt_retry self /\
      requests evs = [].
Proof.
  induction n as [| n IH]; intros self ar a tr Hn;
    rewrite loop_equation_1; cbv zeta; unfold bind, dial, logger, sleep, emit, ret;
    destruct (BlockingConnection tr (parameters self)) as [conn |].
  1, 3: eexists; eexists; (split; [rewrite <- !app_assoc; reflexivity |]);
        repeat split; try reflexivity; cbn; lia.
  - destruct (Z_gt_dec (a + 1) ar) as [Hgt | Hle]; [| lia].
    eexists. eexists. split; [rewrite <- !app_assoc; reflexivity |].
    repeat split; try reflexivity; cbn; lia.
  - destruct (Z_gt_dec (a + 1) ar) as [Hgt | Hle]; [lia |].
    destruct (IH self ar (a + 1)
                (((tr ++ [EvDial (parameters self)])
                    ++ [EvLog WARNING (msg_retry (a + 1) (parameters self))])
                    ++ [EvSleep (Z.min ((a + 1) * 2) 30)])%list)
      as (self' & evs & Hloop & Hd & Hp & Hm & Hr); [lia |].
    rewrite Hloop. exists self'. eexists.
    split; [rewrite <- !app_assoc; reflexivity |].
    rewrite !dials_app, !requests_app, Hr.
    repeat split; try assumption; try reflexivity; cbn; lia.
Qed.

End ConnectRuns.

Section ConnectProperties.

Context `{Pika}.
Import AMQPConnector.

(** X1: when the first [j] attempts of a [connect] fail and the next one is
    accepted, with [j] within the budget (or [j = 0]: the first attempt is
    always made), [connect] returns the new connection and stores it, after
    exactly [j + 1] attempts and the pauses [min(2 i, 30)] for
    [i = 1 .. j]; it makes no further attempt. *)
Theorem connect_succeeds_after_failures
    (self : t) (attempts_retry : option Z) (tr : trace) (j : nat) (conn : handle) :
  (forall evs, (dials evs < j)%nat ->
               BlockingConnection (tr ++ evs) (parameters self) = None) ->
  (forall evs, dials evs = j ->
               BlockingConnection (tr ++ evs) (parameters self) = Some conn) ->
  j = O \/ Z.of_nat j <= budget self attempts_retry ->
  result (connect self attempts_retry) tr =
    Ok (Some conn, mk (Some conn) (max_attempt_retry self) (parameters self)) /\
  dials (after (connect self attempts_retry) tr) = (dials tr + j + 1)%nat /\
  sleeps (after (connect self attempts_retry) tr) = (sleeps tr ++ backoff j)%list.
Proof.
  intros Hfail Hok Hbudget.
  destruct (loop_succeeds j self (budget self attempts_retry) 0 tr conn Hfail Hok)
    as (evs & Hloop & Hd & Hs).
  - destruct Hbudget as [-> | Hle]; [left; reflexivity | right; lia].
  - unfold result, after, connect. rewrite (bind_ok _ _ _ _ _ Hloop).
    unfold ret. simpl. rewrite dials_app, sleeps_app, Hd, Hs.
    repeat split; try reflexivity; lia.
Qed.

(** X2: whatever the broker does, [connect] returns without raising; it
    makes at least one attempt and at most one more than the configured
    maximum (none at all over HTTP); the handle it returns is the one the
    instance then holds; parameters and maximum are unchanged. *)
Theorem connect_attempts_bounded (self : t) (attempts_retry : option Z) (tr : trace) :
  exists conn self',
    result (connect self attempts_retry) tr = Ok (conn, self') /\
    connection self' = conn /\
    parameters self' = parameters self /\
    max_attempt_retry self' = max_attempt_retry self /\
    (dials tr + 1 <= dials (after (connect self attempts_retry) tr))%nat /\
    (dials (after (connect self attempts_retry) tr)
       <= dials tr + Z.to_nat (max_attempt_retry self) + 1)%nat /\
    requests (after (connect self attempts_retry) tr) = requests tr.
Proof.
  destruct (loop_bounded (Z.to_nat (budget self attempts_retry - 0)) self
              (budget self attempts_retry) 0 tr eq_refl)
    as (self' & evs & Hloop & Hd & Hp & Hm & Hr).
  exists (connection self'), self'.
  unfold result, after, connect. rewrite (bind_ok _ _ _ _ _ Hloop).
  unfold ret. simpl. rewrite dials_app, requests_app, Hr, app_nil_r.
  assert (Hb : budget self attempts_retry <= max_attempt_retry self)
    by (unfold budget; destruct attempts_retry; lia).
  repeat split; try assumption; lia.
Qed.

(** X3: when every attempt fails, [connect] sleeps after each failed attempt
    but the last: the pauses are [min(2 i, 30)] for [i] from 1 to the
    budget, in this order, and none when the budget is 0 or less. *)
Theorem connect_backoff_schedule (self : t) (attempts_retry : option Z) (tr : trace) :
  (forall evs, BlockingConnection (tr ++ evs) (parameters self) = None) ->
  sleeps (after (connect self attempts_retry) tr) =
    (sleeps tr ++ backoff (Z.to_nat (budget self attempts_retry)))%list.
Proof.
  intros Hfail.
  pose proof (loop_failing_run (Z.to_nat (budget self attempts_retry - 0)) self
                (budget self attempts_retry) 0 tr Hfail eq_refl) as Hloop.
  unfold after, connect. rewrite (bind_ok _ _ _ _ _ Hloop). unfold ret. simpl.
  rewrite sleeps_app, sleeps_failing_run, Z.sub_0_r. reflexivity.
Qed.

(** X4: an override below 0 (or a maximum below 0) still makes one attempt:
    when it fails, [connect] gives up at once, without a pause, and returns
    the connection the instance already held. *)
Theorem connect_negative_budget (self : t) (attempts_retry : option Z) (tr : trace) :
  budget self attempts_retry < 0 ->
  BlockingConnection tr (parameters self) = None ->
  result (connect self attempts_retry) tr = Ok (connection self, self) /\
  dials (after (connect self attempts_retry) tr) = (dials tr + 1)%nat /\
  sleeps (after (connect self attempts_retry) tr) = sleeps tr.
Proof.
  intros Hneg Hfail. unfold result, after, connect, bind.
  rewrite loop_equation_1. cbv zeta. unfold bind, dial, logger, sleep, emit, ret.
  rewrite Hfail.
  destruct (Z_gt_dec (0 + 1) (budget self attempts_retry)) as [_ | Hle]; [| lia].
  simpl. rewrite !dials_app, !sleeps_app. simpl.
  rewrite !app_nil_r, !Nat.add_0_r. repeat split.
Qed.

(** X5: when every attempt fails, [connect] logs one warning per attempt,
    numbered from 1, and after the last of them one error that names the
    number of attempts made; it logs nothing else. *)
Theorem connect_failure_log (self : t) (attempts_retry : option Z) (tr : trace) :
  (forall evs, BlockingConnection (tr ++ evs) (parameters self) = None) ->
  logs (after (connect self attempts_retry) tr) =
    (logs tr ++
       failure_log (parameters self) (Z.to_nat (budget self attempts_retry)))%list.
Proof.
  intros Hfail.
  pose proof (loop_failing_run (Z.to_nat (budget self attempts_retry - 0)) self
                (budget self attempts_retry) 0 tr Hfail eq_refl) as Hloop.
  unfold after, connect. rewrite (bind_ok _ _ _ _ _ Hloop). unfold ret. simpl.
  rewrite logs_app, logs_failing_run, Z.sub_0_r. reflexivity.
Qed.

End ConnectProperties.

(** ** RESTConnector: every accessor *)

Lemma record_of_dict (d : Dict.t) (fields : list (string * pyval)) :
  record_of (PDict d) fields = Ok (normalised fields d).
Proof.
  induction fields as [| [k default] fields IH]; [reflexivity |].
  simpl. rewrite IH. destruct (Dict.lookup k d); reflexivity.
Qed.

Lemma normalised_keys (d : Dict.t) (fields : list (string * pyval)) :
  map fst (normalised fields d) = map fst fields.
Proof.
  unfold normalised. rewrite map_map. apply map_ext. intros [k default]. reflexivity.
Qed.

(** On a dict, [pick] gives the record of the table's keys. *)
Lemma pick_dict (d : Dict.t) (fields : list (string * pyval)) :
  NoDup (map fst fields) ->
  pick (PDict d) fields = Ok (PDict (normalised fields d)).
Proof.
  intros Hnd. unfold pick. rewrite record_of_dict, of_items_distinct; [reflexivity |].
  rewrite normalised_keys. exact Hnd.
Qed.

Lemma mapM_lift_map {A B} (f : A -> outcome B) (g : A -> B) (l : list A) (tr : trace) :
  (forall a, In a l -> f a = Ok (g a)) ->
  mapM (fun a => lift (f a)) l tr = (Ok (map g l), tr).
Proof.
  induction l as [| a l IH]; intros Hf; [reflexivity |].
  simpl. unfold bind, lift at 1. rewrite (Hf a (or_introl eq_refl)).
  rewrite IH by (intros a' Hin; apply Hf; right; exact Hin). reflexivity.
Qed.

(** [mapM] stops at the first element that raises. *)
Lemma mapM_lift_raise {A B} (f : A -> outcome B) (g : A -> B)
    (before after : list A) (a : A) (e : exn) (tr : trace) :
  (forall a', In a' before -> f a' = Ok (g a')) ->
  f a = Raise e ->
  mapM (fun a => lift (f a)) (before ++ a :: after) tr = (Raise e, tr).
Proof.
  induction before as [| b before IH]; intros Hf Ha; simpl.
  - unfold bind, lift at 1. rewrite Ha. reflexivity.
  - unfold bind, lift at 1. rewrite (Hf b (or_introl eq_refl)).
    rewrite IH by (try assumption; intros a' Hin; apply Hf; right; exact Hin).
    reflexivity.
Qed.

Section RestProperties.

Context `{Requests} `{Json}.
Import RESTConnector.

Lemma make_get_request_after (self : t) (url : string) (tr : trace) :
  after (make_get_request self url) tr =
    (tr ++ EvGet url (auth self) :: refusal_log url (requests_get tr url (auth self)))%list.
Proof.
  unfold after, make_get_request, bind, http_get, refusal_log.
  destruct (requests_get tr url (auth self)) as [r | e]; simpl; [| reflexivity].
  destruct (status_code r =? 200); simpl; [reflexivity |].
  unfold logger, emit, ret, bind. simpl. rewrite <- app_assoc. reflexivity.
Qed.

Lemma after_single {A} (self : t) (url : string) (k : option string -> M A) (tr : trace) :
  (forall data, silent (k data)) ->
  after (bind (make_get_request self url) k) tr =
    (tr ++ EvGet url (auth self) :: refusal_log url (requests_get tr url (auth self)))%list.
Proof.
  intros Hk. rewrite after_bind.
  destruct (result (make_get_request self url) tr) as [data | e].
  - rewrite Hk. apply make_get_request_after.
  - apply make_get_request_after.
Qed.

Lemma result_unreachable {A} (self : t) (url : string) (k : option string -> M A)
    (tr : trace) (e : exn) :
  requests_get tr url (auth self) = Raise e ->
  result (bind (make_get_request self url) k) tr = Raise e.
Proof.
  intros Hget. unfold result, make_get_request, bind, http_get. rewrite Hget.
  reflexivity.
Qed.

(** Proves that the rest of an accessor, after its request, is silent. *)
Ltac silence :=
  repeat first
    [ apply silent_ret
    | apply silent_lift
    | apply silent_mapM; intros
    | apply silent_bind; [| intros]
    | match goal with
      | |- silent (match ?x with _ => _ end) => destruct x
      end ].

Ltac one_request :=
  intros; cbv zeta; unfold one_get; apply after_single; intros; silence.

(** X6: each accessor that is not asked for bindings leaves exactly this
    behind, whatever the transport answers: one GET request to the URL of
    its resource path, with the credentials of the instance, and one error
    line in the log if the response was not a 200; no other request, no
    pause, no connection attempt. *)
Theorem accessors_one_request (self : t) (tr : trace) :
  (forall name_only,
      after (get_list_vhosts self name_only) tr = one_get self "vhosts" tr) /\
  after (get_overview self) tr = one_get self "overview" tr /\
  (forall summary,
      after (get_connections self None summary) tr = one_get self "connections" tr) /\
  (forall v summary,
      after (get_connections self (Some v) summary) tr =
        one_get self ("vhosts/" ++ v ++ "/connections") tr) /\
  after (get_consumers self None) tr = one_get self "consumers" tr /\
  (forall v, after (get_consumers self (Some v)) tr = one_get self ("consumers/" ++ v) tr) /\
  after (get_exchanges self None) tr = one_get self "exchanges" tr /\
  (forall v, after (get_exchanges self (Some v)) tr = one_get self ("exchanges/" ++ v) tr) /\
  (forall v name,
      after (get_exchange self v name false) tr =
        one_get self ("exchanges/" ++ v ++ "/" ++ name) tr) /\
  (forall v name,
      after (get_exchange_binding_source self v name) tr =
        one_get self ("exchanges/" ++ v ++ "/" ++ name ++ "/bindings/source") tr) /\
  (forall v name,
      after (get_exchange_binding_destination self v name) tr =
        one_get self ("exchanges/" ++ v ++ "/" ++ name ++ "/bindings/destination") tr) /\
  after (get_queues self None) tr = one_get self "queues" tr /\
  (forall v, after (get_queues self (Some v)) tr = one_get self ("queues/" ++ v) tr) /\
  (forall v name,
      after (get_queue self v name false) tr =
        one_get self ("queues/" ++ v ++ "/" ++ name) tr) /\
  (forall v name,
      after (get_queue_binding self v name) tr =
        one_get self ("queues/" ++ v ++ "/" ++ name ++ "/bindings") tr).
Proof.
  repeat split;
    unfold get_list_vhosts, get_overview, get_connections, get_consumers,
      get_exchanges, get_exchange, get_exchange_binding_source,
      get_exchange_binding_destination, get_queues, get_queue, get_queue_binding;
    one_request.
Qed.

Ltac unfold_accessors :=
  unfold get_list_vhosts, get_overview, get_connections, get_consumers,
    get_exchanges, get_exchange, get_exchange_binding_source,
    get_exchange_binding_destination, get_queues, get_queue, get_queue_binding;
  cbv zeta.


(** The accessors on a 200 response, when every URL is answered alike. *)
Lemma result_served {A} (self : t) (url : string) (k : option string -> M A)
    (tr : trace) (body : string) :
  (forall url, exists r,
      requests_get tr url (auth self) = Ok r /\ status_code r = 200 /\ text r = body) ->
  result (bind (make_get_request self url) k) tr =
    result (k (Some body)) (tr ++ [EvGet url (auth self)]).
Proof.
  intros Hserve. destruct (Hserve url) as (r & Hget & Hstatus & <-).
  exact (result_accepted self url k tr r Hget Hstatus).
Qed.





Lemma mapM_lift_each {A B} (f : A -> outcome B) (l : list A) (rs : list B) (tr : trace) :
  Forall2 (fun a b => f a = Ok b) l rs ->
  mapM (fun a => lift (f a)) l tr = (Ok rs, tr).
Proof.
  intros Hall. induction Hall as [| a b l rs Ha _ IH]; [reflexivity |].
  simpl. unfold bind, lift at 1. rewrite Ha, IH. reflexivity.
Qed.

(** X12: asked for the names only, [get_list_vhosts] returns the value of
    [name] of each vhost of a 200 response, in the order of the response. *)
Theorem get_list_vhosts_names (self : t) (tr : trace) (r : Response)
    (ds : list Dict.t) (names : list pyval) :
  requests_get tr (get_api_url self (Some "vhosts")) (auth self) = Ok r ->
  status_code r = 200 ->
  json_loads (text r) = Ok (PList (map PDict ds)) ->
  Forall2 (fun d name => Dict.lookup "name" d = Some name) ds names ->
  result (get_list_vhosts self true) tr = Ok (PList names).
Proof.
  intros Hget Hstatus Hloads Hnames. unfold get_list_vhosts. cbv zeta.
  rewrite (result_accepted _ _ _ _ _ Hget Hstatus).
  unfold result, bind. unfold lift at 1. rewrite Hloads.
  unfold lift at 1. cbn [negb py_iter].
  rewrite (mapM_lift_each (fun row => py_getitem row "name") (map PDict ds) names).
  - reflexivity.
  - clear - Hnames. induction Hnames as [| d name ds names Hd _ IH]; simpl.
    + constructor.
    + constructor; [simpl; rewrite Hd; reflexivity | exact IH].
Qed.

(** X13: a vhost of the response without [name] makes [get_list_vhosts],
    asked for the names only, raise [KeyError('name')]: no name is
    returned, also not those of the vhosts before it. *)
Theorem get_list_vhosts_missing_name (self : t) (tr : trace) (r : Response)
    (before after : list Dict.t) (d : Dict.t) :
  requests_get tr (get_api_url self (Some "vhosts")) (auth self) = Ok r ->
  status_code r = 200 ->
  json_loads (text r) = Ok (PList (map PDict (before ++ d :: after))) ->
  Forall (fun d' => Dict.lookup "name" d' <> None) before ->
  Dict.lookup "name" d = None ->
  result (get_list_vhosts self true) tr = Raise (KeyError "name").
Proof.
  intros Hget Hstatus Hloads Hbefore Hd. unfold get_list_vhosts. cbv zeta.
  rewrite (result_accepted _ _ _ _ _ Hget Hstatus).
  unfold result, bind. unfold lift at 1. rewrite Hloads.
  unfold lift at 1. cbn [negb py_iter].
  rewrite map_app. cbn [map].
  rewrite (mapM_lift_raise (fun row => py_getitem row "name")
             (fun row => match py_getitem row "name" with
                         | Ok v => v
                         | Raise _ => PNone
                         end)
             (map PDict before) (map PDict after) (PDict d) (KeyError "name")).
  - reflexivity.
  - intros row Hin. apply in_map_iff in Hin. destruct Hin as (d' & <- & Hin).
    rewrite Forall_forall in Hbefore. specialize (Hbefore d' Hin).
    simpl. destruct (Dict.lookup "name" d'); [reflexivity | contradiction].
  - simpl. rewrite Hd. reflexivity.
Qed.

Lemma run_accepted {A} (self : t) (url : string) (k : option string -> M A)
    (tr : trace) (r : Response) :
  requests_get tr url (auth self) = Ok r ->
  status_code r = 200 ->
  bind (make_get_request self url) k tr =
    k (Some (text r)) (tr ++ [EvGet url (auth self)])%list.
Proof.
  intros Hget Hstatus.
  exact (bind_ok _ _ _ _ _ (make_get_request_accepted _ _ _ _ Hget Hstatus)).
Qed.

Lemma run_refused {A} (self : t) (url : string) (k : option string -> M A)
    (tr : trace) (r : Response) :
  requests_get tr url (auth self) = Ok r ->
  status_code r <> 200 ->
  bind (make_get_request self url) k tr =
    k None (tr ++ [EvGet url (auth self); EvLog ERROR (msg_request url r)])%list.
Proof.
  intros Hget Hstatus.
  exact (bind_ok _ _ _ _ _ (make_get_request_refused _ _ _ _ Hget Hstatus)).
Qed.

Lemma set_bindings_queue (d : Dict.t) (b : pyval) :
  Dict.set "bindings" b (normalised queue_fields d) =
    (normalised queue_fields d ++ [("bindings", b)])%list.
Proof.
  apply set_fresh. unfold Dict.keys. rewrite normalised_keys.
  simpl. intuition discriminate.
Qed.

(** X14: on a 200 response whose body is an object, [get_queue] without
    bindings returns the record of the 15 queue keys: for each the value
    upstream gave or, when upstream has no such key, its default
    ([consumers] 0, [message_stats] and [arguments] empty dicts, [None]
    otherwise); every other upstream key is dropped. *)
Theorem get_queue_normalises (self : t) (vhost name : string) (tr : trace)
    (r : Response) (d : Dict.t) :
  requests_get tr (get_api_url self (Some ("queues/" ++ vhost ++ "/" ++ name)))
    (auth self) = Ok r ->
  status_code r = 200 ->
  json_loads (text r) = Ok (PDict d) ->
  result (get_queue self vhost name false) tr = Ok (PDict (normalised queue_fields d)).
Proof.
  intros Hget Hstatus Hloads. unfold result, get_queue. cbv zeta.
  rewrite (run_accepted _ _ _ _ _ Hget Hstatus).
  unfold bind. unfold lift at 1. rewrite Hloads.
  unfold lift. rewrite (pick_dict _ _ nodup_queue_fields). reflexivity.
Qed.

(** X15: asked for the bindings, [get_queue] issues two requests, for the
    queue and then for its bindings, and returns the queue record with one
    more key at its end, [bindings], holding the decoded body of the
    second response. *)
Theorem get_queue_with_bindings (self : t) (vhost name : string) (tr : trace)
    (r1 r2 : Response) (d : Dict.t) (b : pyval) :
  let url1 := get_api_url self (Some ("queues/" ++ vhost ++ "/" ++ name)) in
  let url2 := get_api_url self (Some ("queues/" ++ vhost ++ "/" ++ name ++ "/bindings")) in
  requests_get tr url1 (auth self) = Ok r1 ->
  status_code r1 = 200 ->
  json_loads (text r1) = Ok (PDict d) ->
  requests_get (tr ++ [EvGet url1 (auth self)]) url2 (auth self) = Ok r2 ->
  status_code r2 = 200 ->
  json_loads (text r2) = Ok b ->
  result (get_queue self vhost name true) tr =
    Ok (PDict (normalised queue_fields d ++ [("bindings", b)])) /\
  requests (after (get_queue self vhost name true) tr) =
    (requests tr ++ [(url1, auth self); (url2, auth self)])%list.
Proof.
  intros url1 url2 Hget1 Hstatus1 Hloads1 Hget2 Hstatus2 Hloads2.
  assert (Hrun : get_queue self vhost name true tr =
                 (Ok (PDict (normalised queue_fields d ++ [("bindings", b)])),
                  ((tr ++ [EvGet url1 (auth self)]) ++ [EvGet url2 (auth self)])%list)).
  { unfold get_queue. cbv zeta.
    rewrite (run_accepted _ _ _ _ _ Hget1 Hstatus1).
    unfold bind at 1. unfold lift at 1. rewrite Hloads1.
    unfold bind at 1. unfold lift at 1. rewrite (pick_dict _ _ nodup_queue_fields).
    unfold bind at 1. unfold get_queue_binding. cbv zeta.
    fold url1 url2. rewrite (run_accepted _ _ _ _ _ Hget2 Hstatus2).
    unfold lift. rewrite Hloads2. unfold py_setitem. cbv beta iota.
    rewrite set_bindings_queue. reflexivity. }
  unfold result, after. rewrite Hrun. cbn [fst snd]. split; [reflexivity |].
  rewrite !requests_app. simpl. rewrite <- app_assoc. reflexivity.
Qed.

(** X16: when the request for the bindings is refused (not a 200),
    [get_queue] does not fail: it returns the queue record with [bindings]
    an empty list, after the same two requests. *)
Theorem get_queue_bindings_refused (self : t) (vhost name : string) (tr : trace)
    (r1 r2 : Response) (d : Dict.t) :
  let url1 := get_api_url self (Some ("queues/" ++ vhost ++ "/" ++ name)) in
  let url2 := get_api_url self (Some ("queues/" ++ vhost ++ "/" ++ name ++ "/bindings")) in
  requests_get tr url1 (auth self) = Ok r1 ->
  status_code r1 = 200 ->
  json_loads (text r1) = Ok (PDict d) ->
  requests_get (tr ++ [EvGet url1 (auth self)]) url2 (auth self) = Ok r2 ->
  status_code r2 <> 200 ->
  result (get_queue self vhost name true) tr =
    Ok (PDict (normalised queue_fields d ++ [("bindings", PList [])])) /\
  requests (after (get_queue self vhost name true) tr) =
    (requests tr ++ [(url1, auth self); (url2, auth self)])%list.
Proof.
  intros url1 url2 Hget1 Hstatus1 Hloads1 Hget2 Hstatus2.
  assert (Hrun : get_queue self vhost name true tr =
                 (Ok (PDict (normalised queue_fields d ++ [("bindings", PList [])])),
                  ((tr ++ [EvGet url1 (auth self)])
                     ++ [EvGet url2 (auth self);
                         EvLog ERROR (msg_request url2 r2)])%list)).
  { unfold get_queue. cbv zeta.
    rewrite (run_accepted _ _ _ _ _ Hget1 Hstatus1).
    unfold bind at 1. unfold lift at 1. rewrite Hloads1.
    unfold bind at 1. unfold lift at 1. rewrite (pick_dict _ _ nodup_queue_fields).
    unfold bind at 1. unfold get_queue_binding. cbv zeta.
    fold url1 url2. rewrite (run_refused _ _ _ _ _ Hget2 Hstatus2).
    unfold lift, ret. unfold py_setitem. cbv beta iota.
    rewrite set_bindings_queue. reflexivity. }
  unfold result, after. rewrite Hrun. cbn [fst snd]. split; [reflexivity |].
  rewrite !requests_app. simpl. rewrite <- app_assoc. reflexivity.
Qed.

(** X17: asked for the bindings, [get_exchange] issues three requests, for
    the exchange, for the bindings in which it is the source and for those
    in which it is the destination, in this order, and returns the upstream
    object with every key it came with and the key [bindings] set to the
    dict of the two decoded bodies under [source] and [destination]. *)
Theorem get_exchange_with_bindings (self : t) (vhost name : string) (tr : trace)
    (r1 r2 r3 : Response) (d : Dict.t) (src dst : pyval) :
  let url1 := get_api_url self (Some ("exchanges/" ++ vhost ++ "/" ++ name)) in
  let url2 :=
    get_api_url self (Some ("exchanges/" ++ vhost ++ "/" ++ name ++ "/bindings/source")) in
  let url3 :=
    get_api_url self
      (Some ("exchanges/" ++ vhost ++ "/" ++ name ++ "/bindings/destination")) in
  requests_get tr url1 (auth self) = Ok r1 ->
  status_code r1 = 200 ->
  json_loads (text r1) = Ok (PDict d) ->
  requests_get (tr ++ [EvGet url1 (auth self)]) url2 (auth self) = Ok r2 ->
  status_code r2 = 200 ->
  json_loads (text r2) = Ok src ->
  requests_get ((tr ++ [EvGet url1 (auth self)]) ++ [EvGet url2 (auth self)])
    url3 (auth self) = Ok r3 ->
  status_code r3 = 200 ->
  json_loads (text r3) = Ok dst ->
  result (get_exchange self vhost name true) tr =
    Ok (PDict (Dict.set "bindings"
                 (PDict [("source", src); ("destination", dst)]) d)) /\
  requests (after (get_exchange self vhost name true) tr) =
    (requests tr ++ [(url1, auth self); (url2, auth self); (url3, auth self)])%list.
Proof.
  intros url1 url2 url3 Hget1 Hstatus1 Hloads1 Hget2 Hstatus2 Hloads2
    Hget3 Hstatus3 Hloads3.
  assert (Hrun : get_exchange self vhost name true tr =
                 (Ok (PDict (Dict.set "bindings"
                               (PDict [("source", src); ("destination", dst)]) d)),
                  (((tr ++ [EvGet url1 (auth self)]) ++ [EvGet url2 (auth self)])
                     ++ [EvGet url3 (auth self)])%list)).
  { unfold get_exchange. cbv zeta.
    rewrite (run_accepted _ _ _ _ _ Hget1 Hstatus1).
    unfold bind at 1. unfold lift at 1. rewrite Hloads1.
    unfold bind at 1. unfold get_exchange_binding_source. cbv zeta.
    fold url1 url2. rewrite (run_accepted _ _ _ _ _ Hget2 Hstatus2).
    unfold lift at 1. rewrite Hloads2.
    unfold bind at 1. unfold get_exchange_binding_destination. cbv zeta.
    fold url3. rewrite (run_accepted _ _ _ _ _ Hget3 Hstatus3).
    unfold lift. rewrite Hloads3. reflexivity. }
  unfold result, after. rewrite Hrun. cbn [fst snd]. split; [reflexivity |].
  rewrite !requests_app. simpl. rewrite <- !app_assoc. reflexivity.
Qed.

End RestProperties.

(** ** The further properties on concrete inputs *)

(** Two refusals, then the broker accepts: three attempts, pauses of 2 and
    4 seconds, connection 2. *)
Lemma connect_succeeds_after_failures_witness :
  let self := AMQPConnector.mk None 3 Example.parameters in
  (forall evs, (dials evs < 2)%nat ->
     @BlockingConnection Scenario.up_at_third ([] ++ evs)
       (AMQPConnector.parameters self) = None) /\
  (forall evs, dials evs = 2%nat ->
     @BlockingConnection Scenario.up_at_third ([] ++ evs)
       (AMQPConnector.parameters self) = Some 2%nat) /\
  (2%nat = O \/ Z.of_nat 2 <= AMQPConnector.budget self None) /\
  result (@AMQPConnector.connect Scenario.up_at_third self None) [] =
    Ok (Some 2%nat, AMQPConnector.mk (Some 2%nat) 3 Example.parameters) /\
  dials (after (@AMQPConnector.connect Scenario.up_at_third self None) []) = 3%nat /\
  sleeps (after (@AMQPConnector.connect Scenario.up_at_third self None) []) = [2; 4].
Proof.
  intros self.
  assert (Hfail : forall evs, (dials evs < 2)%nat ->
            @BlockingConnection Scenario.up_at_third ([] ++ evs)
              (AMQPConnector.parameters self) = None).
  { intros evs Hlt. simpl. destruct (Nat.eqb_spec (dials evs) 2); [lia | reflexivity]. }
  assert (Hok : forall evs, dials evs = 2%nat ->
            @BlockingConnection Scenario.up_at_third ([] ++ evs)
              (AMQPConnector.parameters self) = Some 2%nat).
  { intros evs Heq. simpl. rewrite Heq. reflexivity. }
  assert (Hbudget : 2%nat = O \/ Z.of_nat 2 <= AMQPConnector.budget self None)
    by (right; vm_compute; discriminate).
  repeat (split; [assumption |]).
  exact (@connect_succeeds_after_failures Scenario.up_at_third self None [] 2%nat 2%nat
           Hfail Hok Hbudget).
Defined.

(** A budget of 2 against a broker that is down: pauses of 2 and 4 seconds. *)
Lemma connect_backoff_schedule_witness :
  let self := AMQPConnector.mk None 3 Example.parameters in
  (forall evs, @BlockingConnection Example.down ([] ++ evs)
                 (AMQPConnector.parameters self) = None) /\
  sleeps (after (@AMQPConnector.connect Example.down self (Some 2)) []) = [2; 4].
Proof.
  intros self.
  assert (Hfail : forall evs, @BlockingConnection Example.down ([] ++ evs)
                                (AMQPConnector.parameters self) = None)
    by reflexivity.
  split; [exact Hfail |].
  exact (@connect_backoff_schedule Example.down self (Some 2) [] Hfail).
Defined.

(** An override of -1 against a broker that is down. *)
Lemma connect_negative_budget_witness :
  let self := AMQPConnector.mk None 3 Example.parameters in
  AMQPConnector.budget self (Some (-1)) < 0 /\
  @BlockingConnection Example.down [] (AMQPConnector.parameters self) = None /\
  result (@AMQPConnector.connect Example.down self (Some (-1))) [] = Ok (None, self) /\
  dials (after (@AMQPConnector.connect Example.down self (Some (-1))) []) = 1%nat /\
  sleeps (after (@AMQPConnector.connect Example.down self (Some (-1))) []) = [].
Proof.
  intros self.
  assert (Hneg : AMQPConnector.budget self (Some (-1)) < 0) by (vm_compute; reflexivity).
  assert (Hfail : @BlockingConnection Example.down [] (AMQPConnector.parameters self)
                  = None) by reflexivity.
  repeat (split; [assumption |]).
  exact (@connect_negative_budget Example.down self (Some (-1)) [] Hneg Hfail).
Defined.

(** A budget of 1 against a broker that is down: two warnings, one error. *)
Lemma connect_failure_log_witness :
  let self := AMQPConnector.mk None 3 Example.parameters in
  (forall evs, @BlockingConnection Example.down ([] ++ evs)
                 (AMQPConnector.parameters self) = None) /\
  logs (after (@AMQPConnector.connect Example.down self (Some 1)) []) =
    [(WARNING, "Retry connect: 1 | h:5672/vh");
     (WARNING, "Retry connect: 2 | h:5672/vh");
     (ERROR, "Cannot connect to queue h:5672/vh after 2")].
Proof.
  intros self.
  assert (Hfail : forall evs, @BlockingConnection Example.down ([] ++ evs)
                                (AMQPConnector.parameters self) = None)
    by reflexivity.
  split; [exact Hfail |].
  exact (@connect_failure_log Example.down self (Some 1) [] Hfail).
Defined.






(** The vhosts [a] and [b]. *)
Lemma get_list_vhosts_names_witness :
  let H := Ref.server 200 Scenario.two_vhosts in
  let self := Example.connector in
  let ds := [[("name", PStr "a")]; [("name", PStr "b")]] in
  @requests_get H [] (RESTConnector.get_api_url self (Some "vhosts"))
    (RESTConnector.auth self) = Ok (mkResponse 200 Scenario.two_vhosts) /\
  @json_loads Ref.json Scenario.two_vhosts = Ok (PList (map PDict ds)) /\
  Forall2 (fun d name => Dict.lookup "name" d = Some name) ds [PStr "a"; PStr "b"] /\
  result (@RESTConnector.get_list_vhosts H Ref.json self true) [] =
    Ok (PList [PStr "a"; PStr "b"]).
Proof.
  intros H self ds.
  assert (Hget : @requests_get H [] (RESTConnector.get_api_url self (Some "vhosts"))
                   (RESTConnector.auth self) = Ok (mkResponse 200 Scenario.two_vhosts))
    by reflexivity.
  assert (Hloads : @json_loads Ref.json Scenario.two_vhosts = Ok (PList (map PDict ds)))
    by (vm_compute; reflexivity).
  assert (Hnames : Forall2 (fun d name => Dict.lookup "name" d = Some name) ds
                     [PStr "a"; PStr "b"])
    by (repeat constructor).
  repeat (split; [assumption |]).
  exact (@get_list_vhosts_names H Ref.json self [] _ ds _ Hget eq_refl Hloads Hnames).
Defined.

(** The vhost [a], then a vhost without name. *)
Lemma get_list_vhosts_missing_name_witness :
  let H := Ref.server 200 Scenario.vhost_without_name in
  let self := Example.connector in
  let first := [("name", PStr "a")] in
  let second := [("tracing", PBool false)] in
  @requests_get H [] (RESTConnector.get_api_url self (Some "vhosts"))
    (RESTConnector.auth self) = Ok (mkResponse 200 Scenario.vhost_without_name) /\
  @json_loads Ref.json Scenario.vhost_without_name =
    Ok (PList (map PDict ([first] ++ second :: []))) /\
  Forall (fun d' => Dict.lookup "name" d' <> None) [first] /\
  Dict.lookup "name" second = None /\
  result (@RESTConnector.get_list_vhosts H Ref.json self true) [] =
    Raise (KeyError "name").
Proof.
  intros H self first second.
  assert (Hget : @requests_get H [] (RESTConnector.get_api_url self (Some "vhosts"))
                   (RESTConnector.auth self) =
                 Ok (mkResponse 200 Scenario.vhost_without_name))
    by reflexivity.
  assert (Hloads : @json_loads Ref.json Scenario.vhost_without_name =
                   Ok (PList (map PDict ([first] ++ second :: []))))
    by (vm_compute; reflexivity).
  assert (Hbefore : Forall (fun d' => Dict.lookup "name" d' <> None) [first])
    by (repeat constructor; simpl; discriminate).
  assert (Hd : Dict.lookup "name" second = None) by reflexivity.
  repeat (split; [assumption |]).
  exact (@get_list_vhosts_missing_name H Ref.json self [] _ [first] [] second
           Hget eq_refl Hloads Hbefore Hd).
Defined.

(** The queue [q1] with two consumers and a policy. *)
Lemma get_queue_normalises_witness :
  let H := Ref.server 200 Scenario.queue in
  let self := Example.connector in
  let d := [("name", PStr "q1"); ("consumers", PInt 2); ("policy", PNone)] in
  @requests_get H [] (RESTConnector.get_api_url self (Some "queues/v/q1"))
    (RESTConnector.auth self) = Ok (mkResponse 200 Scenario.queue) /\
  @json_loads Ref.json Scenario.queue = Ok (PDict d) /\
  result (@RESTConnector.get_queue H Ref.json self "v" "q1" false) [] =
    Ok (PDict [
      ("name", PStr "q1"); ("vhost", PNone); ("exclusive", PNone);
      ("auto_delete", PNone); ("durable", PNone); ("messages_persistent", PNone);
      ("messages_unacknowledged_ram", PNone); ("messages_ready_ram", PNone);
      ("messages_ram", PNone); ("consumers", PInt 2); ("state", PNone);
      ("idle_since", PNone); ("memory", PNone);
      ("message_stats", PDict []); ("arguments", PDict [])]).
Proof.
  intros H self d.
  assert (Hget : @requests_get H [] (RESTConnector.get_api_url self (Some "queues/v/q1"))
                   (RESTConnector.auth self) = Ok (mkResponse 200 Scenario.queue))
    by reflexivity.
  assert (Hloads : @json_loads Ref.json Scenario.queue = Ok (PDict d))
    by (vm_compute; reflexivity).
  repeat (split; [assumption |]).
  exact (@get_queue_normalises H Ref.json self "v" "q1" [] _ d Hget eq_refl Hloads).
Defined.

(** The queue, then its bindings. *)
Lemma get_queue_with_bindings_witness :
  let H := Scenario.scripted [mkResponse 200 Scenario.queue;
                              mkResponse 200 Scenario.bindings] in
  let self := Example.connector in
  let d := [("name", PStr "q1"); ("consumers", PInt 2); ("policy", PNone)] in
  let b := PList [PDict [("routing_key", PStr "k")]] in
  let url1 := RESTConnector.get_api_url self (Some "queues/v/q1") in
  let url2 := RESTConnector.get_api_url self (Some "queues/v/q1/bindings") in
  @requests_get H [] url1 (RESTConnector.auth self) = Ok (mkResponse 200 Scenario.queue) /\
  @json_loads Ref.json Scenario.queue = Ok (PDict d) /\
  @requests_get H ([] ++ [EvGet url1 (RESTConnector.auth self)]) url2
    (RESTConnector.auth self) = Ok (mkResponse 200 Scenario.bindings) /\
  @json_loads Ref.json Scenario.bindings = Ok b /\
  result (@RESTConnector.get_queue H Ref.json self "v" "q1" true) [] =
    Ok (PDict (normalised RESTConnector.queue_fields d ++ [("bindings", b)])) /\
  requests (after (@RESTConnector.get_queue H Ref.json self "v" "q1" true) []) =
    [("https://h/api/queues/v/q1", (Some "u", Some "pw"));
     ("https://h/api/queues/v/q1/bindings", (Some "u", Some "pw"))].
Proof.
  intros H self d b url1 url2.
  assert (Hget1 : @requests_get H [] url1 (RESTConnector.auth self) =
                  Ok (mkResponse 200 Scenario.queue)) by reflexivity.
  assert (Hloads1 : @json_loads Ref.json Scenario.queue = Ok (PDict d))
    by (vm_compute; reflexivity).
  assert (Hget2 : @requests_get H ([] ++ [EvGet url1 (RESTConnector.auth self)]) url2
                    (RESTConnector.auth self) = Ok (mkResponse 200 Scenario.bindings))
    by reflexivity.
  assert (Hloads2 : @json_loads Ref.json Scenario.bindings = Ok b)
    by (vm_compute; reflexivity).
  repeat (split; [assumption |]).
  exact (@get_queue_with_bindings H Ref.json self "v" "q1" [] _ _ d b
           Hget1 eq_refl Hloads1 Hget2 eq_refl Hloads2).
Defined.

(** The queue, then a 404 for its bindings. *)
Lemma get_queue_bindings_refused_witness :
  let H := Scenario.scripted [mkResponse 200 Scenario.queue] in
  let self := Example.connector in
  let d := [("name", PStr "q1"); ("consumers", PInt 2); ("policy", PNone)] in
  let url1 := RESTConnector.get_api_url self (Some "queues/v/q1") in
  let url2 := RESTConnector.get_api_url self (Some "queues/v/q1/bindings") in
  @requests_get H [] url1 (RESTConnector.auth self) = Ok (mkResponse 200 Scenario.queue) /\
  @json_loads Ref.json Scenario.queue = Ok (PDict d) /\
  @requests_get H ([] ++ [EvGet url1 (RESTConnector.auth self)]) url2
    (RESTConnector.auth self) = Ok (mkResponse 404 "Not Found") /\
  result (@RESTConnector.get_queue H Ref.json self "v" "q1" true) [] =
    Ok (PDict (normalised RESTConnector.queue_fields d ++ [("bindings", PList [])])) /\
  requests (after (@RESTConnector.get_queue H Ref.json self "v" "q1" true) []) =
    [("https://h/api/queues/v/q1", (Some "u", Some "pw"));
     ("https://h/api/queues/v/q1/bindings", (Some "u", Some "pw"))].
Proof.
  intros H self d url1 url2.
  assert (Hget1 : @requests_get H [] url1 (RESTConnector.auth self) =
                  Ok (mkResponse 200 Scenario.queue)) by reflexivity.
  assert (Hloads1 : @json_loads Ref.json Scenario.queue = Ok (PDict d))
    by (vm_compute; reflexivity).
  assert (Hget2 : @requests_get H ([] ++ [EvGet url1 (RESTConnector.auth self)]) url2
                    (RESTConnector.auth self) = Ok (mkResponse 404 "Not Found"))
    by reflexivity.
  assert (Hstatus2 : status_code (mkResponse 404 "Not Found") <> 200)
    by (simpl; discriminate).
  repeat (split; [assumption |]).
  exact (@get_queue_bindings_refused H Ref.json self "v" "q1" [] _ _ d
           Hget1 eq_refl Hloads1 Hget2 Hstatus2).
Defined.

(** The exchange [e], its bindings as source, and none as destination. *)
Lemma get_exchange_with_bindings_witness :
  let H := Scenario.scripted [mkResponse 200 Body.exchange_with_policy;
                              mkResponse 200 Scenario.bindings;
                              mkResponse 200 "[]"] in
  let self := Example.connector in
  let d := [("name", PStr "e"); ("policy", PNone)] in
  let src := PList [PDict [("routing_key", PStr "k")]] in
  let url1 := RESTConnector.get_api_url self (Some "exchanges/v/e") in
  let url2 := RESTConnector.get_api_url self (Some "exchanges/v/e/bindings/source") in
  let url3 := RESTConnector.get_api_url self (Some "exchanges/v/e/bindings/destination") in
  @requests_get H [] url1 (RESTConnector.auth self) =
    Ok (mkResponse 200 Body.exchange_with_policy) /\
  @json_loads Ref.json Body.exchange_with_policy = Ok (PDict d) /\
  @requests_get H ([] ++ [EvGet url1 (RESTConnector.auth self)]) url2
    (RESTConnector.auth self) = Ok (mkResponse 200 Scenario.bindings) /\
  @json_loads Ref.json Scenario.bindings = Ok src /\
  @requests_get H
    (([] ++ [EvGet url1 (RESTConnector.auth self)])
       ++ [EvGet url2 (RESTConnector.auth self)]) url3
    (RESTConnector.auth self) = Ok (mkResponse 200 "[]") /\
  @json_loads Ref.json "[]" = Ok (PList []) /\
  result (@RESTConnector.get_exchange H Ref.json self "v" "e" true) [] =
    Ok (PDict [("name", PStr "e"); ("policy", PNone);
               ("bindings", PDict [("source", src); ("destination", PList [])])]) /\
  requests (after (@RESTConnector.get_exchange H Ref.json self "v" "e" true) []) =
    [("https://h/api/exchanges/v/e", (Some "u", Some "pw"));
     ("https://h/api/exchanges/v/e/bindings/source", (Some "u", Some "pw"));
     ("https://h/api/exchanges/v/e/bindings/destination", (Some "u", Some "pw"))].
Proof.
  intros H self d src url1 url2 url3.
  assert (Hget1 : @requests_get H [] url1 (RESTConnector.auth self) =
                  Ok (mkResponse 200 Body.exchange_with_policy)) by reflexivity.
  assert (Hloads1 : @json_loads Ref.json Body.exchange_with_policy = Ok (PDict d))
    by (vm_compute; reflexivity).
  assert (Hget2 : @requests_get H ([] ++ [EvGet url1 (RESTConnector.auth self)]) url2
                    (RESTConnector.auth self) = Ok (mkResponse 200 Scenario.bindings))
    by reflexivity.
  assert (Hloads2 : @json_loads Ref.json Scenario.bindings = Ok src)
    by (vm_compute; reflexivity).
  assert (Hget3 : @requests_get H
                    (([] ++ [EvGet url1 (RESTConnector.auth self)])
                       ++ [EvGet url2 (RESTConnector.auth self)]) url3
                    (RESTConnector.auth self) = Ok (mkResponse 200 "[]"))
    by reflexivity.
  assert (Hloads3 : @json_loads Ref.json "[]" = Ok (PList []))
    by (vm_compute; reflexivity).
  repeat (split; [assumption |]).
  exact (@get_exchange_with_bindings H Ref.json self "v" "e" [] _ _ _ d src (PList [])
           Hget1 eq_refl Hloads1 Hget2 eq_refl Hloads2 Hget3 eq_refl Hloads3).
Defined.

(** An overview with the three sections and the name of the node. *)
Lemma get_overview_sections_witness :
  let H := Ref.server 200 Scenario.overview in
  let self := Example.connector in
  let kvs := [("object_totals", PDict [("queues", PInt 1)]); ("message_stats", PDict []);
              ("queue_totals", PDict []); ("node", PStr "n")] in
  @requests_get H [] (RESTConnector.get_api_url self (Some "overview"))
    (RESTConnector.auth self) = Ok (mkResponse 200 Scenario.overview) /\
  @json_loads Ref.json Scenario.overview = Ok (PDict kvs) /\
  result (@RESTConnector.get_overview H Ref.json self) [] =
    Ok (PDict [("object_totals", PDict [("queues", PInt 1)]);
               ("message_stats", PDict []); ("queue_totals", PDict [])]).
Proof.
  intros H self kvs.
  assert (Hget : @requests_get H [] (RESTConnector.get_api_url self (Some "overview"))
                   (RESTConnector.auth self) = Ok (mkResponse 200 Scenario.overview))
    by reflexivity.
  assert (Hloads : @json_loads Ref.json Scenario.overview = Ok (PDict kvs))
    by (vm_compute; reflexivity).
  repeat (split; [assumption |]).
  exact (@get_overview_sections H Ref.json self [] _ kvs _ _ _
           Hget eq_refl Hloads eq_refl eq_refl eq_refl).
Defined.

(** The list of one queue with two consumers and a policy. *)
Lemma get_queues_keys_witness :
  let H := Ref.server 200 Scenario.queues in
  let self := Example.connector in
  let r := PDict (normalised RESTConnector.queue_fields
                    [("name", PStr "q1"); ("consumers", PInt 2); ("policy", PNone)]) in
  result (@RESTConnector.get_queues H Ref.json self None) [] = Ok (PList [r]) /\
  Forall (fun r => py_keys r = map fst RESTConnector.queue_fields) [r].
Proof.
  intros H self r.
  assert (Hresult : result (@RESTConnector.get_queues H Ref.json self None) [] =
                    Ok (PList [r])) by (vm_compute; reflexivity).
  split; [exact Hresult |].
  exact (@get_queues_keys H Ref.json self None [] [r] Hresult).
Defined.

(** The list of one exchange with a policy. *)
Lemma get_exchanges_keys_witness :
  let H := Ref.server 200 ("[" ++ Body.exchange_with_policy ++ "]") in
  let self := Example.connector in
  let r := PDict (normalised RESTConnector.exchange_fields
                    [("name", PStr "e"); ("policy", PNone)]) in
  result (@RESTConnector.get_exchanges H Ref.json self None) [] = Ok (PList [r]) /\
  Forall (fun r => py_keys r = map fst RESTConnector.exchange_fields) [r].
Proof.
  intros H self r.
  assert (Hresult : result (@RESTConnector.get_exchanges H Ref.json self None) [] =
                    Ok (PList [r])) by (vm_compute; reflexivity).
  split; [exact Hresult |].
  exact (@get_exchanges_keys H Ref.json self None [] [r] Hresult).
Defined.
